(** * EPSG finder: coordinate-to-projection resolution

    A shallow embedding of the domain logic of [app.py]: the DMS to
    decimal-degree conversion [dms_to_dd], the UTM zone and EPSG code
    derivation [get_epsg], the projection table [get_projection_info] and
    the CSV batch block that applies [get_epsg] to every row of a pandas
    data frame.

    Numbers.  Python floats are modelled by exact rationals ([Q]), with one
    extra value for NaN (the marker pandas uses for a missing cell);
    rounding of binary64 arithmetic and the infinities are outside that
    model.  Python integers are unbounded and modelled by [Z].  Where the
    rounding decides the result, the zone a longitude falls in, [get_epsg]
    is modelled a second time on IEEE 754 binary64 numbers, in
    [Binary64]. *)

From Stdlib Require Import ZArith QArith Qround String Ascii List Bool Lia.
From Stdlib Require Import DecimalString Lqa SpecFloat.
From Stdlib Require DecimalFacts DecimalPos.
Import ListNotations.

Local Open Scope string_scope.
Local Open Scope Z_scope.

(** ** The fragment of Python the program runs on *)

Module Py.

(** Exceptions the modelled code can raise. *)
Inductive exn : Type :=
| TypeError
| ValueError
| KeyError
| OverflowError
| CRSError.

(** Result of evaluating an expression or calling a function. *)
Inductive res (A : Type) : Type :=
| Ok (a : A)
| Raise (e : exn).
Arguments Ok {A} a.
Arguments Raise {A} e.

Definition bind {A B : Type} (m : res A) (k : A -> res B) : res B :=
  match m with
  | Ok a => k a
  | Raise e => Raise e
  end.

(** Dynamically typed values: what a cell of a data frame, or an argument
    of [get_epsg], can be.  [Series] is what [row[label]] yields when the
    label occurs more than once among the columns. *)
#[warnings="-register-all"] Inductive value : Type :=
| Int (z : Z)
| Float (q : Q)
| NaN
| Str (s : string)
| Series (xs : list value).

Definition is_number (v : value) : bool :=
  match v with
  | Int _ | Float _ | NaN => true
  | Str _ | Series _ => false
  end.

(** [str(z)] for an integer, as an f-string interpolates it. *)
Definition str_of_int (z : Z) : string :=
  NilZero.string_of_int (Z.to_int z).

(** [int(x)] on a finite float: truncation toward zero. *)
Definition trunc (q : Q) : Z := Z.quot (Qnum q) (Zpos (Qden q)).

(** [v + k] for an integer literal [k], on a scalar number. *)
Definition add_scalar (k : Z) (v : value) : value :=
  match v with
  | Int z => Int (z + k)
  | Float q => Float (q + inject_Z k)
  | _ => v
  end.

(** [v / k] for an integer literal [k] (true division), on a scalar
    number. *)
Definition div_scalar (k : Z) (v : value) : value :=
  match v with
  | Int z => Float (inject_Z z / inject_Z k)
  | Float q => Float (q / inject_Z k)
  | _ => v
  end.

(** A binary arithmetic operator with an integer literal on the right:
    numbers are combined, a [str] operand raises [TypeError], a [Series]
    is combined element by element. *)
Definition arith (op : value -> value) (v : value) : res value :=
  match v with
  | Int _ | Float _ | NaN => Ok (op v)
  | Str _ => Raise TypeError
  | Series xs =>
      if forallb is_number xs then Ok (Series (map op xs))
      else Raise TypeError
  end.

Definition add_int (v : value) (k : Z) : res value := arith (add_scalar k) v.
Definition truediv_int (v : value) (k : Z) : res value := arith (div_scalar k) v.

(** [int(v)].  NaN raises [ValueError]; a [Series] of two or more
    elements raises [TypeError].  In this program the operand is always
    the result of a division, hence never a [str]. *)
Definition int (v : value) : res Z :=
  match v with
  | Int z => Ok z
  | Float q => Ok (trunc q)
  | NaN => Raise ValueError
  | Str _ => Raise ValueError
  | Series _ => Raise TypeError
  end.

(** The truth value of [v >= 0], as a conditional expression tests it.
    Comparing a [str] with an integer raises [TypeError]; NaN compares
    false; the truth value of a [Series] is ambiguous ([ValueError]). *)
Definition ge_zero (v : value) : res bool :=
  match v with
  | Int z => Ok (0 <=? z)
  | Float q => Ok (Qle_bool 0 q)
  | NaN => Ok false
  | Str _ => Raise TypeError
  | Series xs =>
      if forallb is_number xs then Raise ValueError else Raise TypeError
  end.

End Py.

Import Py.

Notation "x <- m ;; k" := (bind m (fun x => k))
  (at level 61, m at next level, right associativity).

(** ** AngleConverter: [dms_to_dd] (app.py, lines 22-26) *)

Definition dms_to_dd (degrees minutes seconds : Q) (direction : string) : res Q :=
  let dd := (degrees + minutes / 60 + seconds / 3600)%Q in
  let dd := if existsb (String.eqb direction) ["S"; "W"]
            then (dd * -1)%Q else dd in
  Ok dd.

(** ** ProjectionResolver: [get_epsg] (app.py, lines 53-58) *)

Definition get_epsg (lat lon : value) : res (string * Z) :=
  s <- add_int lon 180 ;;
  d <- truediv_int s 6 ;;
  i <- int d ;;
  let zone_number := i + 1 in
  north <- ge_zero lat ;;
  let hemisphere := if north then "N" else "S" in
  north' <- ge_zero lat ;;
  let epsg_code := if north' then 32600 + zone_number else 32700 + zone_number in
  let utm_zone := str_of_int zone_number ++ hemisphere in
  Ok (utm_zone, epsg_code).

(** ** [get_epsg] at machine precision

    The same function on binary64 numbers, as the single-point lookup
    calls it on the floats of the number fields: addition and division
    round to nearest, ties to even ([SFadd], [SFdiv] at precision 53). *)

Module Binary64.

Definition float : Type := spec_float.

Definition prec : Z := 53.
Definition emax : Z := 1024.

(** The float an integer operand is converted to. *)
Definition of_int (z : Z) : float := binary_normalize prec emax z 0 false.

(** The float a decimal literal [n / 10^k] denotes, for [n] and [10^k]
    below 2^53: the quotient of two exact floats, rounded once. *)
Definition of_decimal (n : Z) (k : N) : float :=
  SFdiv prec emax (of_int n) (of_int (10 ^ Z.of_N k)).

Definition add (x y : float) : float := SFadd prec emax x y.
Definition truediv (x y : float) : float := SFdiv prec emax x y.

(** [x >= y]: false when either side is NaN. *)
Definition ge (x y : float) : bool := SFleb y x.

(** The rational number a finite float is. *)
Definition value (x : float) : option Q :=
  match x with
  | S754_zero _ => Some 0%Q
  | S754_finite s m e =>
      if 0 <=? e then Some (inject_Z (cond_Zopp s (Zpos m) * 2 ^ e))
      else Some (cond_Zopp s (Zpos m) # 2 ^ Z.to_pos (- e))
  | S754_infinity _ | S754_nan => None
  end.

(** [int(x)]: the exact value truncated toward zero; [ValueError] on NaN,
    [OverflowError] on an infinity. *)
Definition int (x : float) : res Z :=
  match x with
  | S754_nan => Raise ValueError
  | S754_infinity _ => Raise OverflowError
  | _ => match value x with
         | Some q => Ok (trunc q)
         | None => Raise ValueError
         end
  end.

(** app.py, lines 53-58. *)
Definition get_epsg (lat lon : float) : res (string * Z) :=
  i <- int (truediv (add lon (of_int 180)) (of_int 6)) ;;
  let zone_number := i + 1 in
  let hemisphere := if ge lat (of_int 0) then "N" else "S" in
  let epsg_code := if ge lat (of_int 0) then 32600 + zone_number
                   else 32700 + zone_number in
  let utm_zone := str_of_int zone_number ++ hemisphere in
  Ok (utm_zone, epsg_code).

End Binary64.

(** ** Ordered dictionaries

    A Python [dict] keeps its keys in insertion order; storing under a key
    that is already present replaces the value and keeps the position. *)

Definition dict : Type := list (string * string).

Fixpoint dict_set (d : dict) (k v : string) : dict :=
  match d with
  | [] => [(k, v)]
  | (k', v') :: d' =>
      if String.eqb k' k then (k', v) :: d' else (k', v') :: dict_set d' k v
  end.

(** A dict display [{k1: v1, ..., kn: vn}] stores its items left to right. *)
Definition dict_display (items : list (string * string)) : dict :=
  fold_left (fun d kv => dict_set d (fst kv) (snd kv)) items [].

(** ** ProjectionResolver: [get_projection_info] (app.py, lines 60-71)

    The function builds three [pyproj.CRS] objects and discards them; all
    that matters of pyproj is whether the lookup of a code succeeds.  The
    EPSG registry is not part of the program and is a parameter here. *)

Section ProjectionInfo.

Variable epsg_registry : Z -> bool.

(** [pyproj.CRS("EPSG:<code>")] and [pyproj.CRS.from_epsg(code)]. *)
Definition crs_from_epsg (code : Z) : res unit :=
  if epsg_registry code then Ok tt else Raise CRSError.

Definition get_projection_info (lat lon : value) : res dict :=
  wgs84 <- crs_from_epsg 4326 ;;
  r <- get_epsg lat lon ;;
  let '(utm_zone, utm_epsg) := r in
  utm <- crs_from_epsg utm_epsg ;;
  mercator <- crs_from_epsg 3857 ;;
  Ok (dict_display
        [ ("WGS84 (Geographic)", "EPSG:4326");
          ("UTM Zone " ++ utm_zone, "EPSG:" ++ str_of_int utm_epsg);
          ("Web Mercator", "EPSG:3857");
          ("Equal Earth", "EPSG:8857");
          ("World Cylindrical Equal Area", "EPSG:54034") ]).

End ProjectionInfo.

(** ** Data frames (the part of pandas the batch block uses)

    A frame is a list of column labels and a list of rows, each row holding
    one cell per column.  Labels need not be distinct. *)

Record DataFrame : Type := mkFrame {
  columns : list string;
  rows : list (list value)
}.

(** A row as [apply(..., axis=1)] hands it to the function: the cells
    indexed by the column labels. *)
Record Row : Type := mkRow {
  index : list string;
  cells : list value
}.

(** [str.lower] on the ASCII letters. *)
Definition lower_ascii (c : ascii) : ascii :=
  let n := N_of_ascii c in
  if ((65 <=? n) && (n <=? 90))%N then ascii_of_N (n + 32) else c.

Fixpoint lower (s : string) : string :=
  match s with
  | EmptyString => EmptyString
  | String c s' => String (lower_ascii c) (lower s')
  end.

(** [df.columns = df.columns.str.lower()] *)
Definition lower_columns (df : DataFrame) : DataFrame :=
  mkFrame (map lower (columns df)) (rows df).

(** [label in df.columns] *)
Definition has_column (label : string) (df : DataFrame) : bool :=
  existsb (String.eqb label) (columns df).

(** The positions at which a label occurs among the columns. *)
Fixpoint positions_from (i : nat) (label : string) (cols : list string) : list nat :=
  match cols with
  | [] => []
  | c :: cols' =>
      if String.eqb c label then i :: positions_from (S i) label cols'
      else positions_from (S i) label cols'
  end.

Definition positions (label : string) (cols : list string) : list nat :=
  positions_from 0 label cols.

Definition take {A : Type} (d : A) (ps : list nat) (xs : list A) : list A :=
  map (fun p => nth p xs d) ps.

(** [df[[l1, ..., ln]]]: every column labelled [l1], then every column
    labelled [l2], and so on. *)
Definition select (labels : list string) (df : DataFrame) : DataFrame :=
  let ps := flat_map (fun l => positions l (columns df)) labels in
  mkFrame (take EmptyString ps (columns df)) (map (take NaN ps) (rows df)).

(** [row[label]]: the cell under the label, or a [Series] of the cells when
    the label is repeated. *)
Definition getitem (row : Row) (label : string) : res value :=
  match take NaN (positions label (index row)) (cells row) with
  | [] => Raise KeyError
  | [v] => Ok v
  | vs => Ok (Series vs)
  end.

(** What [df.apply(f, axis=1)] returns: a [Series] of the results, or, on a
    frame without rows, possibly a copy of the frame. *)
Inductive applied (A : Type) : Type :=
| AsSeries (xs : list A)
| AsFrame (df : DataFrame).
Arguments AsSeries {A} xs.
Arguments AsFrame {A} df.

(** The function is called on the rows in order; the first exception ends
    the traversal and propagates. *)
Fixpoint apply_standard {A : Type} (f : Row -> res A) (cols : list string)
    (rs : list (list value)) : res (list A) :=
  match rs with
  | [] => Ok []
  | r :: rs' =>
      x <- f (mkRow cols r) ;;
      xs <- apply_standard f cols rs' ;;
      Ok (x :: xs)
  end.

(** [df.apply(f, axis=1)].  On a frame with rows the function is applied to
    each of them ([FrameApply.apply_standard]).  On a frame without rows
    pandas does not return an empty [Series] outright: it probes [f] on a
    float row indexed by the columns and filled with NaN
    ([FrameApply.apply_empty_result]; older releases probe on an empty
    row, on which [row[label]] raises).  If the probe raises, the exception
    is swallowed and a copy of the frame is returned; otherwise an empty
    [Series] is. *)
Definition apply_rows {A : Type} (df : DataFrame) (f : Row -> res A)
    : res (applied A) :=
  match rows df with
  | [] =>
      match f (mkRow (columns df) (map (fun _ => NaN) (columns df))) with
      | Ok _ => Ok (AsSeries [])
      | Raise _ => Ok (AsFrame df)
      end
  | rs => xs <- apply_standard f (columns df) rs ;; Ok (AsSeries xs)
  end.

(** Appending a column under a label the frame does not have yet. *)
Definition add_column (df : DataFrame) (key : string) (xs : list value) : DataFrame :=
  mkFrame (columns df ++ [key])%list
          (map (fun rx => (fst rx ++ [snd rx])%list) (combine (rows df) xs)).

(** [df[key] = v] for a new label [key]; the labels this program assigns
    hold capital letters or spaces and are never among the selected
    columns.  A [Series] becomes the new column; a frame is accepted only
    if it has exactly one column ([DataFrame._set_item_frame_value]:
    "Cannot set a DataFrame with multiple columns to the single column"),
    otherwise [ValueError]. *)
Definition setitem {A : Type} (inj : A -> value) (df : DataFrame)
    (key : string) (v : applied A) : res DataFrame :=
  match v with
  | AsSeries xs => Ok (add_column df key (map inj xs))
  | AsFrame d =>
      match columns d with
      | [_] => Ok (add_column df key (map (fun r => nth 0 r NaN) (rows d)))
      | _ => Raise ValueError
      end
  end.

(** The elements of the column a successful [setitem] stored.  A frame is
    only ever stored from a frame without rows, so its column is empty. *)
Definition stored {A : Type} (v : applied A) : list A :=
  match v with
  | AsSeries xs => xs
  | AsFrame _ => []
  end.

(** ** BatchProcessor: the CSV block (app.py, lines 113-132)

    The input is the frame [pd.read_csv] returned.  The three outcomes are
    the three messages the block can end with. *)

Inductive outcome : Type :=
| Processed (df : DataFrame)      (* st.success, st.dataframe, download *)
| MissingColumns                  (* st.error, line 130 *)
| ProcessingError (e : exn).      (* st.error, line 132 *)

(** [lambda row: get_epsg(row['lat'], row['lon'])[0]] (line 120) *)
Definition zone_of_row (row : Row) : res string :=
  lat <- getitem row "lat" ;;
  lon <- getitem row "lon" ;;
  r <- get_epsg lat lon ;;
  Ok (fst r).

(** [lambda row: get_epsg(row['lat'], row['lon'])[1]] (line 121) *)
Definition code_of_row (row : Row) : res Z :=
  lat <- getitem row "lat" ;;
  lon <- getitem row "lon" ;;
  r <- get_epsg lat lon ;;
  Ok (snd r).

(** [lambda e: f"https://epsg.io/{e}"] (line 122) *)
Definition link_of_code (e : Z) : string :=
  "https://epsg.io/" ++ str_of_int e.

(** Lines 119-122. *)
Definition augment (df : DataFrame) : res DataFrame :=
  let df := select ["lat"; "lon"] df in
  zones <- apply_rows df zone_of_row ;;
  df <- setitem Str df "UTM Zone" zones ;;
  codes <- apply_rows df code_of_row ;;
  df <- setitem Int df "EPSG Code" codes ;;
  let links := map link_of_code (stored codes) in
  setitem Str df "EPSG Link" (AsSeries links).

Definition resolveBatch (df : DataFrame) : outcome :=
  let df := lower_columns df in
  if has_column "lat" df && has_column "lon" df then
    match augment df with
    | Ok out => Processed out
    | Raise e => ProcessingError e
    end
  else MissingColumns.

(** ** The single-point lookup (app.py, lines 13-104)

    Streamlit runs the script from top to bottom on every interaction: the
    widgets return their current values, a button returns [True] in the run
    its click triggers, and [st.session_state] is what the previous run
    left.  One run is modelled as a function of the widget values and of
    the stored result. *)

(** The input widgets: two number fields, or two DMS groups (lines 30-47). *)
Inductive coordinates : Type :=
| DecimalDegrees (lat lon : Q)
| DegMinSec (lat_deg lat_min lat_sec : Q) (lat_dir : string)
            (lon_deg lon_min lon_sec : Q) (lon_dir : string).

(** Lines 30-50: the latitude and longitude the rest of the run uses. *)
Definition read_coordinates (c : coordinates) : res (Q * Q) :=
  match c with
  | DecimalDegrees lat lon => Ok (lat, lon)
  | DegMinSec lat_deg lat_min lat_sec lat_dir lon_deg lon_min lon_sec lon_dir =>
      lat <- dms_to_dd lat_deg lat_min lat_sec lat_dir ;;
      lon <- dms_to_dd lon_deg lon_min lon_sec lon_dir ;;
      Ok (lat, lon)
  end.

(** The dict kept in [st.session_state.epsg_result] (lines 80-84). *)
Record lookup : Type := mkLookup {
  lookup_lat : Q;
  lookup_lon : Q;
  lookup_projections : dict
}.

(** [s.split(':')] *)
Fixpoint split_colon (s : string) : list string :=
  match s with
  | EmptyString => [EmptyString]
  | String c s' =>
      if Ascii.eqb c ":" then EmptyString :: split_colon s'
      else match split_colon s' with
           | [] => [String c EmptyString]
           | part :: parts => String c part :: parts
           end
  end.

(** [https://epsg.io/{code.split(':')[-1]}] (line 99) *)
Definition view_url (code : string) : string :=
  "https://epsg.io/" ++ last (split_colon code) EmptyString.

(** What lines 96-104 put on the page for a stored result: the coordinates
    of the success line and of the map marker (their formatting with six
    decimals is not modelled), one line per projection with its name, code
    and link, and the tooltip of the marker. *)
Record page : Type := mkPage {
  page_coordinates : Q * Q;
  page_projections : list (string * string * string);
  page_tooltip : string
}.

Definition display (r : lookup) : res page :=
  let lat := lookup_lat r in
  let lon := lookup_lon r in
  let lines := map (fun entry => (fst entry, snd entry, view_url (snd entry)))
                   (lookup_projections r) in
  e <- get_epsg (Float lat) (Float lon) ;;
  Ok (mkPage (lat, lon) lines ("EPSG:" ++ str_of_int (snd e))).

(** What one run leaves and shows: the stored result, whether the warning
    of line 76 was issued, and the page of the result, if one is stored. *)
Record run_result : Type := mkRun {
  stored_result : option lookup;
  warned : bool;
  shown : option page
}.

Section SinglePoint.

Variable epsg_registry : Z -> bool.

(** Lines 74-84: the body of the "Find EPSG Code" button. *)
Definition find_epsg (lat lon : Q) : res (option lookup * bool) :=
  if Qeq_bool lat 0 && Qeq_bool lon 0 then Ok (None, true)
  else
    projections <- get_projection_info epsg_registry (Float lat) (Float lon) ;;
    Ok (Some (mkLookup lat lon projections), false).

(** Lines 30-104 of one run; [session] is [st.session_state.epsg_result]
    ([None] after the initialisation of lines 13-14). *)
Definition run (session : option lookup) (c : coordinates)
    (find_clicked clear_clicked : bool) : res run_result :=
  latlon <- read_coordinates c ;;
  found <- (if find_clicked then find_epsg (fst latlon) (snd latlon)
            else Ok (session, false)) ;;
  let session := if clear_clicked then None else fst found in
  match session with
  | Some r => p <- display r ;; Ok (mkRun session (snd found) (Some p))
  | None => Ok (mkRun session (snd found) None)
  end.

End SinglePoint.

(** ** Specification-side notions *)

(** Truncation toward zero as the specification words it: the floor of a
    non-negative number, the ceiling of a negative one. *)
Definition toward_zero (q : Q) : Z :=
  if Qle_bool 0 q then Qfloor q else Qceiling q.

(** What a decimal numeral denotes: an optional minus sign, then digits
    read from the left, each step multiplying by ten. *)
Definition digit_value (c : ascii) : option Z :=
  let n := Z.of_N (N_of_ascii c) in
  if (48 <=? n) && (n <=? 57) then Some (n - 48) else None.

Fixpoint digits_value (s : string) (acc : Z) : option Z :=
  match s with
  | EmptyString => Some acc
  | String c s' =>
      match digit_value c with
      | Some d => digits_value s' (10 * acc + d)
      | None => None
      end
  end.

Definition decimal_value (s : string) : option Z :=
  match s with
  | EmptyString => None
  | String "-" EmptyString => None
  | String "-" s' => option_map Z.opp (digits_value s' 0)
  | _ => digits_value s 0
  end.

(** The numeral has no leading zero: it is "0", or starts (after the
    sign, if any) with a digit from 1 to 9. *)
Definition canonical_decimal (s : string) : bool :=
  match s with
  | String "0" EmptyString => true
  | String "-" (String c _) | String c _ =>
      match digit_value c with
      | Some d => 0 <? d
      | None => false
      end
  | EmptyString => false
  end.

(** [s] is the decimal numeral of [z], the way Python prints an integer. *)
Definition decimal_of (z : Z) (s : string) : Prop :=
  decimal_value s = Some z /\ canonical_decimal s = true.

(** The directions the specification accepts. *)
Definition accepted_directions : list string := ["N"; "S"; "E"; "W"].

(** A numeric cell: an integer or a finite float. *)
Definition is_finite (v : value) : bool :=
  match v with
  | Int _ | Float _ => true
  | NaN | Str _ | Series _ => false
  end.

(** The label and code [get_epsg] returns, where it returns. *)
Definition epsg_of (lat lon : value) : string * Z :=
  match get_epsg lat lon with
  | Ok r => r
  | Raise _ => (EmptyString, 0)
  end.

(** The output row the specification asks for: the two coordinates, the
    zone label, the EPSG code and the lookup URL. *)
Definition expected_row (lat lon : value) : list value :=
  [ lat; lon; Str (fst (epsg_of lat lon)); Int (snd (epsg_of lat lon));
    Str ("https://epsg.io/" ++ str_of_int (snd (epsg_of lat lon))) ].

(** A table whose rows hold a float latitude at position [i] and a float
    longitude at position [j]. *)
Definition all_float (i j : nat) (rs : list (list value)) : Prop :=
  forall r, In r rs ->
    exists lat lon : Q, nth i r NaN = Float lat /\ nth j r NaN = Float lon.

(** A table whose rows hold a numeric latitude at position [i] and a
    numeric longitude at position [j]. *)
Definition all_numeric (i j : nat) (rs : list (list value)) : Prop :=
  forall r, In r rs -> is_finite (nth i r NaN) = true /\ is_finite (nth j r NaN) = true.

(** * Properties *)

(** ** Truncation *)

Lemma trunc_toward_zero (q : Q) : trunc q = toward_zero q.
Proof.
  destruct q as [n d]. unfold trunc, toward_zero, Qceiling, Qfloor, Qle_bool.
  cbn [Qnum Qden Qopp]. rewrite Z.mul_0_l, Z.mul_1_r.
  destruct (Z.leb_spec 0 n) as [Hn | Hn].
  - apply Z.quot_div_nonneg; lia.
  - rewrite <- (Z.opp_involutive n) at 1.
    rewrite Z.quot_opp_l by lia.
    f_equal. apply Z.quot_div_nonneg; lia.
Qed.

(** ** AngleConverter *)

Lemma dms_to_dd_unnegated (d m s : Q) (dir : string) :
  dir <> "S" -> dir <> "W" ->
  dms_to_dd d m s dir = Ok (d + m / 60 + s / 3600)%Q.
Proof.
  intros HS HW. unfold dms_to_dd. cbn [existsb].
  apply String.eqb_neq in HS, HW. rewrite HS, HW. reflexivity.
Qed.

Lemma dms_to_dd_negated (d m s : Q) (dir : string) :
  dir = "S" \/ dir = "W" ->
  dms_to_dd d m s dir = Ok ((d + m / 60 + s / 3600) * -1)%Q.
Proof.
  intros [-> | ->]; reflexivity.
Qed.

Lemma times_minus_one (q : Q) : (q * -1 == - q)%Q.
Proof. ring. Qed.

(** C7. For every degrees, minutes and seconds, whatever their range, and
    every direction among N, S, E, W, [dms_to_dd] returns
    degrees + minutes/60 + seconds/3600, negated exactly when the direction
    is S or W. *)
Theorem dms_to_dd_formula (d m s : Q) (dir : string) :
  In dir accepted_directions ->
  exists dd : Q,
    dms_to_dd d m s dir = Ok dd /\
    (dir = "S" \/ dir = "W" -> (dd == - (d + m / 60 + s / 3600))%Q) /\
    (dir = "N" \/ dir = "E" -> (dd == d + m / 60 + s / 3600)%Q).
Proof.
  intros Hdir.
  assert (Hcases : (dir = "S" \/ dir = "W") \/ (dir = "N" \/ dir = "E")).
  { cbn in Hdir. intuition auto. }
  destruct Hcases as [Hneg | Hpos].
  - eexists. split; [apply dms_to_dd_negated, Hneg |]. split.
    + intros _. apply times_minus_one.
    + intros [-> | ->]; destruct Hneg; discriminate.
  - eexists. split.
    + apply dms_to_dd_unnegated; destruct Hpos; subst; discriminate.
    + split; [| reflexivity].
      intros [-> | ->]; destruct Hpos; discriminate.
Qed.

(** Minutes of 75 are accepted and simply added: 10 deg 75 min is 11.25. *)
Lemma dms_to_dd_formula_witness :
  exists dd : Q,
    dms_to_dd 10 75 0 "N" = Ok dd /\
    ("N" = "S" \/ "N" = "W" -> (dd == - (10 + 75 / 60 + 0 / 3600))%Q) /\
    ("N" = "N" \/ "N" = "E" -> (dd == 10 + 75 / 60 + 0 / 3600)%Q).
Proof.
  apply (dms_to_dd_formula 10 75 0 "N"). cbn. auto.
Defined.

(** C8. [dms_to_dd] is negation-symmetric: the result for S is the negation
    of the result for N, and the result for W the negation of that for E. *)
Theorem dms_to_dd_negation_symmetric (d m s : Q) :
  exists n s' e w : Q,
    dms_to_dd d m s "N" = Ok n /\ dms_to_dd d m s "S" = Ok s' /\
    dms_to_dd d m s "E" = Ok e /\ dms_to_dd d m s "W" = Ok w /\
    (s' == - n)%Q /\ (w == - e)%Q.
Proof.
  do 4 eexists. repeat split; try reflexivity; apply times_minus_one.
Qed.

(** C10. For every direction other than S and W, the strings outside
    N, S, E, W included, [dms_to_dd] raises nothing and returns
    degrees + minutes/60 + seconds/3600 unnegated. *)
Theorem dms_to_dd_other_direction_positive (d m s : Q) (dir : string) :
  dir <> "S" -> dir <> "W" ->
  dms_to_dd d m s dir = Ok (d + m / 60 + s / 3600)%Q.
Proof.
  apply dms_to_dd_unnegated.
Qed.

Lemma dms_to_dd_other_direction_positive_witness :
  "up" <> "S" /\ "up" <> "W" /\
  dms_to_dd 12 30 36 "up" = Ok (12 + 30 / 60 + 36 / 3600)%Q.
Proof.
  split; [discriminate |]. split; [discriminate |].
  apply (dms_to_dd_other_direction_positive 12 30 36 "up"); discriminate.
Defined.

(** C3, as stated, fails: a direction outside N, S, E, W raises nothing. *)
Lemma dms_to_dd_invalid_direction_not_rejected :
  ~ (forall (d m s : Q) (dir : string),
       ~ In dir accepted_directions ->
       exists e : exn, dms_to_dd d m s dir = Raise e).
Proof.
  intros H.
  destruct (H 1 2 3 "X")%Q as [e He].
  - cbn. intros [E | [E | [E | [E | []]]]]; discriminate.
  - discriminate.
Qed.

(** C3, amended. For every direction outside N, S, E, W, [dms_to_dd] raises
    no error: it returns degrees + minutes/60 + seconds/3600, the direction
    being treated as a positive one. *)
Theorem dms_to_dd_invalid_direction_accepted (d m s : Q) (dir : string) :
  ~ In dir accepted_directions ->
  exists dd : Q,
    dms_to_dd d m s dir = Ok dd /\ (dd == d + m / 60 + s / 3600)%Q.
Proof.
  intros Hout. eexists. split; [| reflexivity].
  apply dms_to_dd_unnegated; intros ->; apply Hout; cbn; auto.
Qed.

Lemma dms_to_dd_invalid_direction_accepted_witness :
  exists dd : Q,
    dms_to_dd 1 2 3 "X" = Ok dd /\ (dd == 1 + 2 / 60 + 3 / 3600)%Q.
Proof.
  apply (dms_to_dd_invalid_direction_accepted 1 2 3 "X").
  cbn. intros [E | [E | [E | [E | []]]]]; discriminate.
Defined.

(** ** ProjectionResolver *)

(** *** Decimal numerals *)

Ltac eval_digit :=
  match goal with
  | |- match digit_value ?c with _ => _ end = _ =>
      let v := eval vm_compute in (digit_value c) in
      change (digit_value c) with v; cbv iota
  end.

Lemma digits_value_acc (d : Decimal.uint) (p : positive) :
  digits_value (NilEmpty.string_of_uint d) (Zpos p) = Some (Zpos (Pos.of_uint_acc d p)).
Proof.
  revert p.
  induction d; intros p;
    cbn [NilEmpty.string_of_uint digits_value Pos.of_uint_acc];
    [reflexivity | ..];
    eval_digit; rewrite <- IHd; f_equal; lia.
Qed.

Lemma digits_value_uint (d : Decimal.uint) :
  digits_value (NilEmpty.string_of_uint d) 0 = Some (Z.of_N (Pos.of_uint d)).
Proof.
  induction d; cbn [NilEmpty.string_of_uint digits_value Pos.of_uint];
    [reflexivity | ..];
    eval_digit; try exact IHd;
    cbn [Z.of_N]; rewrite <- digits_value_acc; reflexivity.
Qed.

(** The numeral of a positive number does not start with a zero. *)
Lemma to_uint_head (p : positive) (l : Decimal.uint) : Pos.to_uint p <> Decimal.D0 l.
Proof.
  intros H.
  pose proof (DecimalPos.Unsigned.to_of (Pos.to_uint p)) as Hn.
  rewrite DecimalPos.Unsigned.of_to in Hn. cbn [N.to_uint] in Hn. rewrite H in Hn.
  unfold Decimal.unorm in Hn. cbn [Decimal.nzhead] in Hn.
  pose proof (DecimalFacts.nb_digits_nzhead l) as Hlen.
  destruct (Decimal.nzhead l) eqn:Hz;
    [ injection Hn as Hl; subst l;
      apply (DecimalPos.Unsigned.to_uint_nonzero p); exact H
    | rewrite <- Hn in Hlen; cbn [Decimal.nb_digits] in Hlen; lia .. ].
Qed.

Lemma str_of_pos (p : positive) :
  exists (c : ascii) (s : string) (k : Z),
    NilZero.string_of_uint (Pos.to_uint p) = String c s /\
    digit_value c = Some k /\ 0 < k /\
    digits_value (String c s) 0 = Some (Zpos p).
Proof.
  pose proof (digits_value_uint (Pos.to_uint p)) as Hv.
  rewrite DecimalPos.Unsigned.of_to in Hv. cbn [Z.of_N] in Hv.
  pose proof (to_uint_head p) as Hhead.
  pose proof (DecimalPos.Unsigned.to_uint_nonnil p) as Hnil.
  unfold NilZero.string_of_uint.
  destruct (Pos.to_uint p) as [| l | l | l | l | l | l | l | l | l | l];
    [congruence | now destruct (Hhead l) | ..];
    cbn [NilEmpty.string_of_uint] in *;
    do 3 eexists;
    (split; [reflexivity | split; [reflexivity | split; [reflexivity | exact Hv]]]).
Qed.

(** What [str_of_int] prints is the decimal numeral of its argument. *)
Lemma str_of_int_decimal (z : Z) : decimal_of z (str_of_int z).
Proof.
  unfold decimal_of, str_of_int.
  destruct z as [| p | p]; cbn [Z.to_int NilZero.string_of_int].
  - split; reflexivity.
  - destruct (str_of_pos p) as (c & s & k & Hs & Hc & Hk & Hv). rewrite Hs.
    assert (Hminus : c <> "-"%char) by (intros ->; discriminate).
    split.
    + rewrite <- Hv. unfold decimal_value.
      destruct c as [[] [] [] [] [] [] [] []]; try reflexivity; congruence.
    + unfold canonical_decimal.
      destruct c as [[] [] [] [] [] [] [] []]; try discriminate Hc;
        try (exfalso; apply Hminus; reflexivity);
        cbn in Hc |- *; try (injection Hc as <-); try reflexivity; try lia.
  - destruct (str_of_pos p) as (c & s & k & Hs & Hc & Hk & Hv). rewrite Hs.
    split.
    + change (decimal_value (String "-" (String c s)))
        with (option_map Z.opp (digits_value (String c s) 0)).
      rewrite Hv. reflexivity.
    + unfold canonical_decimal. rewrite Hc. now apply Z.ltb_lt.
Qed.

(** *** [get_epsg] on binary64 numbers *)

Lemma binary64_int_value (x : Binary64.float) (q : Q) :
  Binary64.value x = Some q -> Binary64.int x = Ok (trunc q).
Proof.
  intros H. unfold Binary64.int.
  destruct x; try discriminate H; now rewrite H.
Qed.

Lemma binary64_ge_zero (x : Binary64.float) (v : Q) :
  Binary64.value x = Some v ->
  Binary64.ge x (Binary64.of_int 0) = Qle_bool 0 v.
Proof.
  intros H. change (Binary64.of_int 0) with (S754_zero false).
  unfold Binary64.ge, SFleb, SFcompare.
  destruct x as [s | s | | s m e]; try discriminate H.
  - injection H as <-. reflexivity.
  - assert (Hpow : 0 < 2 ^ e \/ e < 0) by (destruct (Z.leb_spec 0 e); [left; lia | right; lia]).
    cbn [Binary64.value] in H.
    destruct (Z.leb_spec 0 e) as [He | He]; injection H as <-;
      unfold Qle_bool; cbn [Qnum Qden inject_Z]; rewrite Z.mul_0_l, Z.mul_1_r;
      destruct s; cbn [cond_Zopp];
      symmetry; first [apply Z.leb_le | apply Z.leb_gt]; nia.
Qed.

(** C1. For every latitude and longitude that are numbers, [get_epsg] as the
    machine runs it returns the label made of the decimal numeral of the
    zone number and the hemisphere letter, and the EPSG code, where the
    zone number is the truncation toward zero of the quotient
    (lon + 180) / 6 it computes, plus 1, the hemisphere is N when lat >= 0
    and S otherwise, and the code is 32600 + zone when lat >= 0 and
    32700 + zone otherwise; at (0, 0) this is "31N" and 32631. *)
Theorem get_epsg_binary64 (lat lon : Binary64.float) (vlat q : Q) :
  Binary64.value lat = Some vlat ->
  Binary64.value
    (Binary64.truediv (Binary64.add lon (Binary64.of_int 180)) (Binary64.of_int 6)) =
    Some q ->
  let zone := toward_zero q + 1 in
  (exists digits : string,
     decimal_of zone digits /\
     Binary64.get_epsg lat lon =
       Ok (digits ++ (if Qle_bool 0 vlat then "N" else "S"),
           if Qle_bool 0 vlat then 32600 + zone else 32700 + zone)) /\
  Binary64.get_epsg (Binary64.of_int 0) (Binary64.of_int 0) = Ok ("31N", 32631).
Proof.
  intros Hlat Hq zone. split; [| vm_compute; reflexivity].
  exists (str_of_int zone). split; [apply str_of_int_decimal |].
  unfold Binary64.get_epsg.
  rewrite (binary64_int_value _ q Hq), (binary64_ge_zero lat vlat Hlat).
  cbn [bind]. unfold zone. rewrite trunc_toward_zero. reflexivity.
Qed.

(** The longitude 5.999999999999999 lies west of the boundary at 6, yet
    the sum 185.999999999999999 rounds to 186 and the zone is 32. *)
Lemma get_epsg_binary64_witness :
  exists digits : string,
    decimal_of 32 digits /\
    Binary64.get_epsg (Binary64.of_decimal 515 1)
                      (Binary64.of_decimal 5999999999999999 15) =
      Ok (digits ++ "N", 32632).
Proof.
  apply (get_epsg_binary64 (Binary64.of_decimal 515 1)
                           (Binary64.of_decimal 5999999999999999 15)
                           (7247980650299392 # 140737488355328)
                           (8725724278030336 # 281474976710656)).
  - vm_compute. reflexivity.
  - vm_compute. reflexivity.
Defined.

Lemma get_epsg_float (lat lon : Q) :
  exists (zone : string) (code : Z), get_epsg (Float lat) (Float lon) = Ok (zone, code).
Proof.
  do 2 eexists. reflexivity.
Qed.

Lemma dict_display_projections (zone code : string) :
  dict_display
    [ ("WGS84 (Geographic)", "EPSG:4326");
      ("UTM Zone " ++ zone, "EPSG:" ++ code);
      ("Web Mercator", "EPSG:3857");
      ("Equal Earth", "EPSG:8857");
      ("World Cylindrical Equal Area", "EPSG:54034") ] =
    [ ("WGS84 (Geographic)", "EPSG:4326");
      ("UTM Zone " ++ zone, "EPSG:" ++ code);
      ("Web Mercator", "EPSG:3857");
      ("Equal Earth", "EPSG:8857");
      ("World Cylindrical Equal Area", "EPSG:54034") ].
Proof.
  reflexivity.
Qed.

(** C5, as stated, fails: the UTM code of (10, 400) is 32697, which is no
    EPSG code, so pyproj raises and no table is returned. *)
Lemma get_projection_info_not_total :
  let registry := fun c : Z =>
    (c =? 4326) || (c =? 3857) ||
    ((32601 <=? c) && (c <=? 32660)) || ((32701 <=? c) && (c <=? 32760)) in
  ~ (forall lat lon : Q,
       exists table : dict,
         get_projection_info registry (Float lat) (Float lon) = Ok table /\
         length table = 5%nat).
Proof.
  intros registry H. destruct (H 10 400)%Q as (table & Htable & _).
  vm_compute in Htable. discriminate.
Qed.

(** C5, amended. For every latitude and longitude for which pyproj knows the
    three codes it is asked for (4326, the UTM code, 3857), the table of
    [get_projection_info] has exactly five entries, in this order: WGS84
    (EPSG:4326), the UTM zone (the name holds the zone label, the value is
    EPSG: followed by the decimal numeral of the UTM code), Web Mercator
    (EPSG:3857), Equal Earth (EPSG:8857), World Cylindrical Equal Area
    (EPSG:54034); the table of any other call agrees with it at every
    entry but the UTM one. *)
Theorem get_projection_info_table (epsg_registry : Z -> bool) (lat lon : Q) :
  epsg_registry 4326 = true ->
  epsg_registry 3857 = true ->
  (forall zone code,
     get_epsg (Float lat) (Float lon) = Ok (zone, code) ->
     epsg_registry code = true) ->
  exists (zone : string) (code : Z) (digits : string) (table : dict),
    get_epsg (Float lat) (Float lon) = Ok (zone, code) /\
    decimal_of code digits /\
    get_projection_info epsg_registry (Float lat) (Float lon) = Ok table /\
    table =
      [ ("WGS84 (Geographic)", "EPSG:4326");
        ("UTM Zone " ++ zone, "EPSG:" ++ digits);
        ("Web Mercator", "EPSG:3857");
        ("Equal Earth", "EPSG:8857");
        ("World Cylindrical Equal Area", "EPSG:54034") ] /\
    length table = 5%nat /\
    forall (lat' lon' : Q) (table' : dict),
      get_projection_info epsg_registry (Float lat') (Float lon') = Ok table' ->
      length table' = 5%nat /\
      forall k : nat, k <> 1%nat -> nth_error table' k = nth_error table k.
Proof.
  intros Hwgs Hmerc Hutm.
  destruct (get_epsg_float lat lon) as (zone & code & Hz).
  exists zone, code, (str_of_int code). eexists. split; [exact Hz |].
  split; [apply str_of_int_decimal |].
  assert (Hinfo : get_projection_info epsg_registry (Float lat) (Float lon) =
                  Ok [ ("WGS84 (Geographic)", "EPSG:4326");
                       ("UTM Zone " ++ zone, "EPSG:" ++ str_of_int code);
                       ("Web Mercator", "EPSG:3857");
                       ("Equal Earth", "EPSG:8857");
                       ("World Cylindrical Equal Area", "EPSG:54034") ]).
  { unfold get_projection_info, crs_from_epsg.
    rewrite Hwgs, Hz. cbn [bind]. rewrite (Hutm zone code Hz), Hmerc. cbn [bind].
    rewrite dict_display_projections. reflexivity. }
  split; [exact Hinfo |]. split; [reflexivity |]. split; [reflexivity |].
  intros lat' lon' table' Hinfo'.
  destruct (get_epsg_float lat' lon') as (zone' & code' & Hz').
  unfold get_projection_info, crs_from_epsg in Hinfo'.
  rewrite Hwgs, Hz' in Hinfo'. cbn [bind] in Hinfo'.
  destruct (epsg_registry code'); [| discriminate].
  rewrite Hmerc in Hinfo'. cbn [bind] in Hinfo'.
  rewrite dict_display_projections in Hinfo'.
  injection Hinfo' as <-. split; [reflexivity |].
  intros [| [| [| [| [| k]]]]] Hk; try reflexivity. contradiction.
Qed.

(** A registry holding the geographic and Web Mercator codes and the 120
    UTM zones of WGS 84. *)
Lemma get_projection_info_table_witness :
  let registry := fun c : Z =>
    (c =? 4326) || (c =? 3857) ||
    ((32601 <=? c) && (c <=? 32660)) || ((32701 <=? c) && (c <=? 32760)) in
  exists (zone : string) (code : Z) (digits : string) (table : dict),
    get_epsg (Float (-33.9)) (Float 151.2) = Ok (zone, code) /\
    decimal_of code digits /\
    get_projection_info registry (Float (-33.9)) (Float 151.2) = Ok table /\
    table =
      [ ("WGS84 (Geographic)", "EPSG:4326");
        ("UTM Zone " ++ zone, "EPSG:" ++ digits);
        ("Web Mercator", "EPSG:3857");
        ("Equal Earth", "EPSG:8857");
        ("World Cylindrical Equal Area", "EPSG:54034") ] /\
    length table = 5%nat /\
    forall (lat' lon' : Q) (table' : dict),
      get_projection_info registry (Float lat') (Float lon') = Ok table' ->
      length table' = 5%nat /\
      forall k : nat, k <> 1%nat -> nth_error table' k = nth_error table k.
Proof.
  intros registry.
  apply (get_projection_info_table registry (-33.9) 151.2).
  - reflexivity.
  - reflexivity.
  - intros zone code H. vm_compute in H. injection H as _ <-. reflexivity.
Defined.

(** ** Lists of positions *)

Lemma positions_from_app (i : nat) (l : string) (a b : list string) :
  positions_from i l (a ++ b) =
  (positions_from i l a ++ positions_from (i + length a) l b)%list.
Proof.
  revert i. induction a as [| c a IH]; intros i; cbn [positions_from app length].
  - now rewrite Nat.add_0_r.
  - rewrite (IH (S i)), Nat.add_succ_r.
    destruct (String.eqb c l); reflexivity.
Qed.

Lemma positions_from_repeat_same (i : nat) (l : string) (n : nat) :
  positions_from i l (repeat l n) = seq i n.
Proof.
  revert i. induction n as [| n IH]; intros i; cbn [repeat positions_from seq].
  - reflexivity.
  - now rewrite String.eqb_refl, IH.
Qed.

Lemma positions_from_repeat_other (i : nat) (l l' : string) (n : nat) :
  l' <> l -> positions_from i l (repeat l' n) = [].
Proof.
  intros Hne. apply String.eqb_neq in Hne.
  revert i. induction n as [| n IH]; intros i; cbn [repeat positions_from].
  - reflexivity.
  - now rewrite Hne, IH.
Qed.

Lemma positions_from_nth (l : string) (pre cols : list string) (d : string) :
  Forall (fun p => nth p (pre ++ cols) d = l)
         (positions_from (length pre) l cols).
Proof.
  revert pre. induction cols as [| c cols IH]; intros pre; cbn [positions_from].
  - constructor.
  - assert (Htail : Forall (fun p => nth p (pre ++ c :: cols) d = l)
                           (positions_from (S (length pre)) l cols)).
    { specialize (IH (pre ++ [c])%list).
      rewrite <- app_assoc, length_app, Nat.add_1_r in IH. exact IH. }
    destruct (String.eqb_spec c l) as [-> | _]; [| exact Htail].
    constructor; [| exact Htail].
    now rewrite nth_middle.
Qed.

Lemma take_positions (l : string) (cols : list string) :
  take EmptyString (positions l cols) cols = repeat l (length (positions l cols)).
Proof.
  unfold take, positions.
  pose proof (positions_from_nth l [] cols EmptyString) as H. cbn [app length] in H.
  induction H as [| p ps Hp _ IH]; cbn [map length repeat]; congruence.
Qed.

Lemma take_seq {A : Type} (d : A) (pre a post : list A) :
  take d (seq (length pre) (length a)) (pre ++ a ++ post) = a.
Proof.
  unfold take. revert pre. induction a as [| x a IH]; intros pre; cbn [length seq map].
  - reflexivity.
  - rewrite <- app_comm_cons, nth_middle. f_equal.
    specialize (IH (pre ++ [x])%list).
    rewrite <- app_assoc, length_app, Nat.add_1_r in IH. exact IH.
Qed.

Lemma take_length {A : Type} (d : A) (ps : list nat) (xs : list A) :
  length (take d ps xs) = length ps.
Proof.
  apply length_map.
Qed.

Lemma has_column_positions (l : string) (df : DataFrame) :
  has_column l df = true <-> positions l (columns df) <> [].
Proof.
  unfold has_column, positions. generalize 0%nat.
  induction (columns df) as [| c cols IH]; intros i; cbn [existsb positions_from].
  - split; [discriminate | congruence].
  - rewrite (String.eqb_sym l c). destruct (String.eqb c l); cbn [orb].
    + split; [discriminate | reflexivity].
    + apply IH.
Qed.

(** ** Selecting the coordinate columns *)

Lemma select_columns (df : DataFrame) :
  columns (select ["lat"; "lon"] df) =
  (repeat "lat" (length (positions "lat" (columns df))) ++
   repeat "lon" (length (positions "lon" (columns df))))%list.
Proof.
  unfold select. cbn [columns flat_map]. rewrite app_nil_r.
  unfold take at 1. rewrite map_app.
  fold (take EmptyString (positions "lat" (columns df)) (columns df)).
  fold (take EmptyString (positions "lon" (columns df)) (columns df)).
  now rewrite !take_positions.
Qed.

Lemma select_rows (df : DataFrame) :
  rows (select ["lat"; "lon"] df) =
  map (fun r => (take NaN (positions "lat" (columns df)) r ++
                 take NaN (positions "lon" (columns df)) r)%list) (rows df).
Proof.
  unfold select. cbn [rows flat_map]. rewrite app_nil_r.
  apply map_ext. intros r. unfold take. apply map_app.
Qed.

(** In a row of the selected frame, [row["lat"]] and [row["lon"]] are what
    they were in the row of the frame selected from. *)
Lemma getitem_selected (cols : list string) (r : list value) (l : string) :
  l = "lat" \/ l = "lon" ->
  let n := length (positions "lat" cols) in
  let m := length (positions "lon" cols) in
  getitem (mkRow (repeat "lat" n ++ repeat "lon" m)
                 (take NaN (positions "lat" cols) r ++
                  take NaN (positions "lon" cols) r)) l =
  getitem (mkRow cols r) l.
Proof.
  intros Hl n m. unfold getitem. cbn [index cells].
  set (a := take NaN (positions "lat" cols) r).
  set (b := take NaN (positions "lon" cols) r).
  assert (Ha : length a = n) by apply take_length.
  assert (Hb : length b = m) by apply take_length.
  unfold positions at 1. rewrite positions_from_app, repeat_length.
  destruct Hl as [-> | ->].
  - rewrite positions_from_repeat_same, positions_from_repeat_other by discriminate.
    rewrite app_nil_r, <- Ha.
    pose proof (take_seq NaN [] a b) as H. cbn [app length] in H.
    now rewrite H.
  - rewrite positions_from_repeat_other, positions_from_repeat_same by discriminate.
    cbn [app]. rewrite Nat.add_0_l, <- Ha, <- Hb.
    pose proof (take_seq NaN a b []) as H. rewrite app_nil_r in H.
    now rewrite H.
Qed.

(** ** Rows [get_epsg] rejects *)

Lemma get_epsg_bad_lon (lat lon : value) :
  is_finite lon = false -> exists e, get_epsg lat lon = Raise e.
Proof.
  intros Hlon. unfold get_epsg.
  destruct lon as [z | q | | s | xs]; try discriminate; cbn; eauto.
  destruct (forallb is_number xs); cbn; eauto.
  destruct (forallb is_number (map (add_scalar 180) xs)); cbn; eauto.
Qed.

Lemma get_epsg_bad_lat (lat lon : value) :
  (exists s, lat = Str s) \/ (exists xs, lat = Series xs) ->
  exists e, get_epsg lat lon = Raise e.
Proof.
  intros Hlat. unfold get_epsg.
  destruct (add_int lon 180) as [v | e]; cbn [bind]; eauto.
  destruct (truediv_int v 6) as [w | e]; cbn [bind]; eauto.
  destruct (int w) as [i | e]; cbn [bind]; eauto.
  destruct Hlat as [[s ->] | [xs ->]]; cbn; eauto.
  destruct (forallb is_number xs); cbn; eauto.
Qed.

Lemma get_epsg_finite (lat lon : value) :
  is_finite lat = true -> is_finite lon = true ->
  get_epsg lat lon = Ok (epsg_of lat lon).
Proof.
  intros Hlat Hlon. unfold epsg_of.
  destruct lat; try discriminate; destruct lon; try discriminate; reflexivity.
Qed.

(** ** Row-wise application *)

Lemma apply_rows_nonempty {A : Type} (df : DataFrame) (f : Row -> res A) :
  rows df <> [] ->
  apply_rows df f = (xs <- apply_standard f (columns df) (rows df) ;; Ok (AsSeries xs)).
Proof.
  unfold apply_rows. destruct (rows df); [congruence | reflexivity].
Qed.

Lemma apply_standard_raises {A : Type} (f : Row -> res A) (cols : list string)
    (rs : list (list value)) (r : list value) (e : exn) :
  In r rs -> f (mkRow cols r) = Raise e ->
  exists e', apply_standard f cols rs = Raise e'.
Proof.
  intros Hin Hr. induction rs as [| r' rs IH]; [contradiction |].
  cbn [apply_standard].
  destruct Hin as [-> | Hin].
  - rewrite Hr. cbn. eauto.
  - destruct (f (mkRow cols r')) as [x | e1]; cbn [bind]; eauto.
    destruct (IH Hin) as [e' ->]. cbn. eauto.
Qed.

Lemma apply_standard_map {A B : Type} (f : Row -> res A) (cols : list string)
    (g : B -> list value) (h : B -> A) (bs : list B) :
  (forall b, In b bs -> f (mkRow cols (g b)) = Ok (h b)) ->
  apply_standard f cols (map g bs) = Ok (map h bs).
Proof.
  induction bs as [| b bs IH]; intros Hf; cbn [map apply_standard].
  - reflexivity.
  - rewrite (Hf b (or_introl eq_refl)). cbn [bind].
    rewrite IH by (intros b' Hb'; apply Hf; now right). reflexivity.
Qed.

Lemma add_column_map {B : Type} (cols : list string) (key : string)
    (g : B -> list value) (h : B -> value) (bs : list B) :
  add_column (mkFrame cols (map g bs)) key (map h bs) =
  mkFrame (cols ++ [key]) (map (fun b => g b ++ [h b])%list bs).
Proof.
  unfold add_column. cbn [columns rows]. f_equal.
  induction bs as [| b bs IH]; cbn [map combine fst snd]; [reflexivity |].
  now rewrite IH.
Qed.

(** ** BatchProcessor *)

Lemma has_column_lower (l : string) (df : DataFrame) :
  has_column l (lower_columns df) = true <-> In l (map lower (columns df)).
Proof.
  unfold has_column, lower_columns. cbn [columns].
  rewrite existsb_exists. split.
  - intros (c & Hc & Heq). apply String.eqb_eq in Heq. now subst.
  - intros Hin. exists l. split; [exact Hin | apply String.eqb_refl].
Qed.

(** C4. A table none of whose columns is named lat, or none of whose
    columns is named lon, whatever the case of the letters, ends in the
    missing-columns failure, whatever its rows hold: no row is processed
    and no output row is produced. *)
Theorem resolveBatch_missing_columns (df : DataFrame) :
  (forall c, In c (columns df) -> lower c <> "lat") \/
  (forall c, In c (columns df) -> lower c <> "lon") ->
  resolveBatch df = MissingColumns.
Proof.
  intros Hmiss. unfold resolveBatch.
  assert (Hnot : forall l, (forall c, In c (columns df) -> lower c <> l) ->
                           has_column l (lower_columns df) = false).
  { intros l Hl. apply not_true_is_false. intros Hhas.
    apply has_column_lower, in_map_iff in Hhas.
    destruct Hhas as (c & Hc & Hin). exact (Hl c Hin Hc). }
  destruct Hmiss as [Hlat | Hlon].
  - now rewrite (Hnot "lat" Hlat).
  - rewrite (Hnot "lon" Hlon). now rewrite andb_false_r.
Qed.

Lemma resolveBatch_missing_columns_witness :
  resolveBatch (mkFrame ["Lat"; "Long"; "name"]
                        [[Float 48.85; Float 2.35; Str "Paris"];
                         [Str "north"; NaN; Str "?"]]) = MissingColumns.
Proof.
  apply resolveBatch_missing_columns. right.
  cbn [columns]. intros c [<- | [<- | [<- | []]]]; vm_compute; discriminate.
Defined.

Lemma take_nan_row (ps : list nat) (idx : list string) :
  take NaN ps (map (fun _ => NaN) idx) = map (fun _ => NaN) ps.
Proof.
  unfold take. apply map_ext. intros p.
  revert p. induction idx as [| c idx IH]; intros [| p]; cbn [map nth]; auto.
Qed.

Lemma getitem_nan_row (idx : list string) (l : string) (v : value) :
  getitem (mkRow idx (map (fun _ => NaN) idx)) l = Ok v -> is_finite v = false.
Proof.
  unfold getitem. cbn [index cells]. rewrite take_nan_row.
  destruct (positions l idx) as [| p [| p' ps]]; cbn [map]; intros H;
    [discriminate | |]; injection H as <-; reflexivity.
Qed.

(** The probe of [apply] on a frame without rows always raises. *)
Lemma zone_of_row_nan_row (idx : list string) :
  exists e, zone_of_row (mkRow idx (map (fun _ => NaN) idx)) = Raise e.
Proof.
  unfold zone_of_row.
  destruct (getitem _ "lat") as [lat | e]; cbn [bind]; eauto.
  destruct (getitem _ "lon") as [lon | e] eqn:Hlon; cbn [bind]; eauto.
  destruct (get_epsg_bad_lon lat lon (getitem_nan_row _ _ _ Hlon)) as [e ->].
  cbn. eauto.
Qed.

Lemma augment_no_rows (df : DataFrame) :
  rows df = [] ->
  positions "lat" (columns df) <> [] ->
  positions "lon" (columns df) <> [] ->
  augment df = Raise ValueError.
Proof.
  intros Hrows Hlat Hlon. unfold augment.
  set (sel := select ["lat"; "lon"] df).
  assert (Hsel : rows sel = []) by (unfold sel; now rewrite select_rows, Hrows).
  unfold apply_rows at 1. rewrite Hsel.
  destruct (zone_of_row_nan_row (columns sel)) as [e ->]. cbn [bind setitem].
  unfold sel. rewrite select_columns.
  destruct (positions "lat" (columns df)) as [| p [| p' ps]]; [congruence | |];
    destruct (positions "lon" (columns df)) as [| q qs]; try congruence;
    reflexivity.
Qed.

(** C9 fails on the code: a table with the lat and lon columns and no
    rows ends in the processing error, not in an empty output. *)
Theorem resolveBatch_no_rows (cols : list string) :
  In "lat" (map lower cols) ->
  In "lon" (map lower cols) ->
  resolveBatch (mkFrame cols []) = ProcessingError ValueError.
Proof.
  intros Hlat Hlon. unfold resolveBatch.
  apply (has_column_lower "lat" (mkFrame cols [])) in Hlat.
  apply (has_column_lower "lon" (mkFrame cols [])) in Hlon.
  rewrite Hlat, Hlon. cbn [andb].
  rewrite augment_no_rows; [reflexivity | reflexivity | |];
    now apply has_column_positions.
Qed.

Lemma resolveBatch_no_rows_witness :
  resolveBatch (mkFrame ["LAT"; "Lon"; "name"] []) = ProcessingError ValueError.
Proof.
  apply resolveBatch_no_rows; vm_compute; auto.
Defined.

Lemma zone_of_row_bad_lat (cols : list string) (r : list value) (s : string) :
  getitem (mkRow cols r) "lat" = Ok (Str s) ->
  exists e,
    zone_of_row
      (mkRow (columns (select ["lat"; "lon"] (mkFrame cols [])))
             (take NaN (positions "lat" cols) r ++
              take NaN (positions "lon" cols) r)) = Raise e.
Proof.
  intros Hlat. unfold zone_of_row.
  rewrite select_columns. cbn [columns].
  rewrite (getitem_selected cols r "lat") by auto.
  rewrite (getitem_selected cols r "lon") by auto.
  rewrite Hlat. cbn [bind].
  destruct (getitem (mkRow cols r) "lon") as [lon | e]; cbn [bind]; eauto.
  destruct (get_epsg_bad_lat (Str s) lon) as [e ->]; [eauto |].
  cbn. eauto.
Qed.

(** C2, as stated, fails: with one non-numeric latitude among three rows
    the batch produces no output at all.  (A frame read from a CSV file
    holds the other latitudes of that column as strings too; the batch
    then fails at the first row already.) *)
Lemma resolveBatch_bad_row_not_isolated :
  let df := mkFrame ["lat"; "lon"]
                    [[Float 10; Float 20]; [Str "abc"; Float 30]; [Float (-5); Float 40]] in
  ~ (exists out : DataFrame,
       resolveBatch df = Processed out /\ length (rows out) = length (rows df)).
Proof.
  intros df (out & Hout & _). vm_compute in Hout. discriminate.
Qed.

(** C2, amended. In a table with the lat and lon columns, a row whose
    latitude is a text string makes the whole batch end in the processing
    error: no output row is produced, for that row or for any other.  (A
    missing latitude, which pandas reads as NaN, is not text and does not
    stop the batch.) *)
Theorem resolveBatch_bad_row_aborts (df : DataFrame) (r : list value) (s : string) :
  In "lon" (map lower (columns df)) ->
  In r (rows df) ->
  getitem (mkRow (map lower (columns df)) r) "lat" = Ok (Str s) ->
  exists e, resolveBatch df = ProcessingError e.
Proof.
  intros Hlon Hr Hlat. unfold resolveBatch.
  assert (Hhas : has_column "lat" (lower_columns df) = true).
  { apply has_column_positions. cbn [lower_columns columns]. intros Hnone.
    unfold getitem in Hlat. cbn [index cells] in Hlat.
    rewrite Hnone in Hlat. discriminate. }
  apply has_column_lower in Hlon. rewrite Hhas, Hlon. cbn [andb].
  enough (Hraise : exists e, augment (lower_columns df) = Raise e)
    by (destruct Hraise as [e ->]; eauto).
  unfold augment. set (sel := select ["lat"; "lon"] (lower_columns df)).
  assert (Hin : In (take NaN (positions "lat" (map lower (columns df))) r ++
                    take NaN (positions "lon" (map lower (columns df))) r)%list
                   (rows sel)).
  { unfold sel. rewrite select_rows. cbn [lower_columns columns rows].
    exact (in_map (fun r0 =>
                     take NaN (positions "lat" (map lower (columns df))) r0 ++
                     take NaN (positions "lon" (map lower (columns df))) r0)%list
                  _ _ Hr). }
  rewrite apply_rows_nonempty by (destruct (rows sel); [contradiction | discriminate]).
  destruct (zone_of_row_bad_lat _ r s Hlat) as [e He].
  assert (Hcols : columns sel =
                  columns (select ["lat"; "lon"] (mkFrame (map lower (columns df)) []))).
  { unfold sel. now rewrite !select_columns. }
  rewrite <- Hcols in He.
  destruct (apply_standard_raises zone_of_row (columns sel) (rows sel) _ e Hin He)
    as [e' ->].
  cbn. eauto.
Qed.

Lemma resolveBatch_bad_row_aborts_witness :
  exists e,
    resolveBatch (mkFrame ["Lat"; "Lon"]
                          [[Float 10; Float 20]; [Str "abc"; Float 30];
                           [Float (-5); Float 40]]) = ProcessingError e.
Proof.
  apply (resolveBatch_bad_row_aborts _ [Str "abc"; Float 30] "abc").
  - vm_compute. auto.
  - cbn [rows In]. auto.
  - reflexivity.
Defined.

Lemma select_unique (cols : list string) (rs : list (list value)) (i j : nat) :
  positions "lat" cols = [i] ->
  positions "lon" cols = [j] ->
  select ["lat"; "lon"] (mkFrame cols rs) =
  mkFrame ["lat"; "lon"] (map (fun r => [nth i r NaN; nth j r NaN]) rs).
Proof.
  intros Hi Hj.
  pose proof (take_positions "lat" cols) as Hlat.
  pose proof (take_positions "lon" cols) as Hlon.
  rewrite Hi in Hlat. rewrite Hj in Hlon.
  unfold select. cbn [columns rows flat_map]. rewrite Hi, Hj.
  unfold take in *. cbn [map app length repeat] in *.
  injection Hlat as ->. injection Hlon as ->. reflexivity.
Qed.

Lemma zone_of_row_numeric (lat lon : value) :
  is_finite lat = true -> is_finite lon = true ->
  zone_of_row (mkRow ["lat"; "lon"] [lat; lon]) = Ok (fst (epsg_of lat lon)).
Proof.
  intros Hlat Hlon. unfold zone_of_row.
  change (getitem (mkRow ["lat"; "lon"] [lat; lon]) "lat") with (Ok lat).
  change (getitem (mkRow ["lat"; "lon"] [lat; lon]) "lon") with (Ok lon).
  cbn [bind]. now rewrite get_epsg_finite.
Qed.

Lemma code_of_row_numeric (lat lon zone : value) :
  is_finite lat = true -> is_finite lon = true ->
  code_of_row (mkRow ["lat"; "lon"; "UTM Zone"] [lat; lon; zone]) =
  Ok (snd (epsg_of lat lon)).
Proof.
  intros Hlat Hlon. unfold code_of_row.
  change (getitem (mkRow ["lat"; "lon"; "UTM Zone"] [lat; lon; zone]) "lat") with (Ok lat).
  change (getitem (mkRow ["lat"; "lon"; "UTM Zone"] [lat; lon; zone]) "lon") with (Ok lon).
  cbn [bind]. now rewrite get_epsg_finite.
Qed.

Lemma augment_numeric (cols : list string) (rs : list (list value)) (i j : nat) :
  positions "lat" cols = [i] ->
  positions "lon" cols = [j] ->
  rs <> [] ->
  all_numeric i j rs ->
  augment (mkFrame cols rs) =
  Ok (mkFrame ["lat"; "lon"; "UTM Zone"; "EPSG Code"; "EPSG Link"]
              (map (fun r => expected_row (nth i r NaN) (nth j r NaN)) rs)).
Proof.
  intros Hi Hj Hne Hnum. unfold augment.
  rewrite (select_unique cols rs i j Hi Hj).
  assert (Hmap : forall (g : list value -> list value), map g rs <> []).
  { intros g. destruct rs; [congruence | discriminate]. }
  rewrite apply_rows_nonempty by apply Hmap. cbn [columns rows].
  rewrite (apply_standard_map zone_of_row _ _
             (fun r => fst (epsg_of (nth i r NaN) (nth j r NaN))))
    by (intros r Hr; apply zone_of_row_numeric; apply (Hnum r Hr)).
  cbn [bind setitem]. rewrite map_map, add_column_map. cbn [app].
  rewrite apply_rows_nonempty by apply Hmap. cbn [columns rows].
  rewrite (apply_standard_map code_of_row _ _
             (fun r => snd (epsg_of (nth i r NaN) (nth j r NaN))))
    by (intros r Hr; apply code_of_row_numeric; apply (Hnum r Hr)).
  cbn [bind setitem stored]. rewrite map_map, add_column_map. cbn [app].
  rewrite !map_map, add_column_map. reflexivity.
Qed.

(** C6 fails on the code at the table with the lat and lon columns and no
    rows: its values are all numeric, vacuously, and the claim asks for an
    output with as many rows as the input, none; the batch ends in the
    processing error instead. *)
Theorem resolveBatch_header_only :
  let df := mkFrame ["lat"; "lon"] [] in
  resolveBatch df = ProcessingError ValueError /\
  ~ (exists out : DataFrame,
       resolveBatch df = Processed out /\ length (rows out) = length (rows df)).
Proof.
  intros df. split; [reflexivity |].
  intros (out & Hout & _). vm_compute in Hout. discriminate.
Qed.

(** * Further properties of the code *)

(** ** Zone arithmetic of [get_epsg] *)

Ltac q_lra :=
  unfold Qdiv, inject_Z in *; change (/ (6 # 1))%Q with (1 # 6) in *;
  simpl Z.add in *; lra.

Lemma Qfloor_band (q : Q) (k : Z) :
  (inject_Z k <= q)%Q -> (q < inject_Z (k + 1))%Q -> Qfloor q = k.
Proof.
  intros Hlo Hhi.
  pose proof (Qfloor_le q) as Hfl. pose proof (Qlt_floor q) as Hfu.
  assert (Qfloor q < k + 1) by (rewrite Zlt_Qlt; lra).
  assert (k < Qfloor q + 1) by (rewrite Zlt_Qlt; lra).
  lia.
Qed.

Lemma Qle_bool_false (x y : Q) : Qle_bool x y = false -> (y < x)%Q.
Proof.
  intros H. apply Qnot_le_lt. intros Hle.
  apply Qle_bool_iff in Hle. congruence.
Qed.

Lemma trunc_band (q : Q) (k : Z) :
  0 <= k -> (inject_Z k <= q)%Q -> (q < inject_Z (k + 1))%Q -> trunc q = k.
Proof.
  intros Hk Hlo Hhi. rewrite trunc_toward_zero. unfold toward_zero.
  assert (H0 : (0 <= q)%Q).
  { apply Qle_trans with (inject_Z k); [| exact Hlo].
    change 0%Q with (inject_Z 0). now rewrite <- Zle_Qle. }
  apply Qle_bool_iff in H0. rewrite H0. now apply Qfloor_band.
Qed.

Lemma trunc_small (q : Q) : (-1 < q)%Q -> (q < 1)%Q -> trunc q = 0.
Proof.
  intros Hlo Hhi. rewrite trunc_toward_zero. unfold toward_zero.
  destruct (Qle_bool 0 q) eqn:Hsign.
  - apply Qle_bool_iff in Hsign. apply Qfloor_band; q_lra.
  - apply Qle_bool_false in Hsign. unfold Qceiling.
    rewrite (Qfloor_band (- q) 0); [reflexivity | q_lra | q_lra].
Qed.

Lemma trunc_monotone (p q : Q) : (p <= q)%Q -> trunc p <= trunc q.
Proof.
  intros Hpq. rewrite !trunc_toward_zero. unfold toward_zero.
  destruct (Qle_bool 0 p) eqn:Hp; destruct (Qle_bool 0 q) eqn:Hq.
  - now apply Qfloor_resp_le.
  - apply Qle_bool_iff in Hp. apply Qle_bool_false in Hq. lra.
  - apply Qle_bool_false in Hp. apply Qle_bool_iff in Hq.
    transitivity 0.
    + rewrite <- (Qceiling_Z 0). apply Qceiling_resp_le. q_lra.
    + rewrite <- (Qfloor_Z 0). apply Qfloor_resp_le. exact Hq.
  - now apply Qceiling_resp_le.
Qed.

Lemma get_epsg_float_trunc (lat lon : Q) :
  get_epsg (Float lat) (Float lon) =
  Ok (str_of_int (trunc ((lon + 180) / 6) + 1) ++ (if Qle_bool 0 lat then "N" else "S"),
      if Qle_bool 0 lat then 32600 + (trunc ((lon + 180) / 6) + 1)
      else 32700 + (trunc ((lon + 180) / 6) + 1)).
Proof.
  reflexivity.
Qed.

(** X2. For -180 <= lon <= 180 the zone number is between 1 and 61, so the
    code is one of 32601..32661 (north) or 32701..32761 (south). *)
Theorem get_epsg_zone_range (lat lon : Q) :
  (-180 <= lon)%Q -> (lon <= 180)%Q ->
  exists zone : Z,
    1 <= zone <= 61 /\
    get_epsg (Float lat) (Float lon) =
      Ok (str_of_int zone ++ (if Qle_bool 0 lat then "N" else "S"),
          (if Qle_bool 0 lat then 32600 else 32700) + zone).
Proof.
  intros Hlo Hhi. exists (trunc ((lon + 180) / 6) + 1). split.
  - assert (H0 : (inject_Z 0 <= (lon + 180) / 6)%Q) by q_lra.
    assert (H60 : ((lon + 180) / 6 <= inject_Z 60)%Q) by q_lra.
    pose proof (trunc_monotone _ _ H0) as Hge.
    pose proof (trunc_monotone _ _ H60) as Hle.
    change (trunc (inject_Z 0)) with 0 in Hge.
    change (trunc (inject_Z 60)) with 60 in Hle.
    lia.
  - rewrite get_epsg_float_trunc. now destruct (Qle_bool 0 lat).
Qed.

Lemma get_epsg_zone_range_witness :
  exists zone : Z,
    1 <= zone <= 61 /\
    get_epsg (Float (-33.9)) (Float 151.2) =
      Ok (str_of_int zone ++ (if Qle_bool 0 (-33.9) then "N" else "S"),
          (if Qle_bool 0 (-33.9) then 32600 else 32700) + zone).
Proof.
  apply (get_epsg_zone_range (-33.9) 151.2); q_lra.
Defined.

(** X3. The zone never decreases when the longitude increases: at a fixed
    latitude, lon1 <= lon2 gives code1 <= code2. *)
Theorem get_epsg_monotone (lat lon1 lon2 : Q) (zone1 zone2 : string) (code1 code2 : Z) :
  (lon1 <= lon2)%Q ->
  get_epsg (Float lat) (Float lon1) = Ok (zone1, code1) ->
  get_epsg (Float lat) (Float lon2) = Ok (zone2, code2) ->
  code1 <= code2.
Proof.
  intros Hle H1 H2. rewrite get_epsg_float_trunc in H1, H2.
  assert (E1 : code1 = if Qle_bool 0 lat then 32600 + (trunc ((lon1 + 180) / 6) + 1)
                       else 32700 + (trunc ((lon1 + 180) / 6) + 1)) by congruence.
  assert (E2 : code2 = if Qle_bool 0 lat then 32600 + (trunc ((lon2 + 180) / 6) + 1)
                       else 32700 + (trunc ((lon2 + 180) / 6) + 1)) by congruence.
  clear H1 H2.
  assert (Hq : ((lon1 + 180) / 6 <= (lon2 + 180) / 6)%Q)
    by (unfold Qdiv; change (/ 6)%Q with (1 # 6); lra).
  pose proof (trunc_monotone _ _ Hq) as Hm.
  destruct (Qle_bool 0 lat); lia.
Qed.

Lemma get_epsg_monotone_witness : 32630 <= 32656.
Proof.
  apply (get_epsg_monotone 51.5 (-0.1) 151.2 "30N" "56N" 32630 32656);
    [q_lra | reflexivity | reflexivity].
Defined.

(** X4. Truncation is toward zero, so zone 1 is twelve degrees wide: every
    longitude with -186 < lon < -174, the six degrees west of -180
    included, is in zone 1. *)
Theorem get_epsg_zone_one_wide (lat lon : Q) :
  (-186 < lon)%Q -> (lon < -174)%Q ->
  get_epsg (Float lat) (Float lon) =
    Ok ("1" ++ (if Qle_bool 0 lat then "N" else "S"),
        if Qle_bool 0 lat then 32601 else 32701).
Proof.
  intros Hlo Hhi. rewrite get_epsg_float_trunc.
  rewrite (trunc_small ((lon + 180) / 6)).
  - reflexivity.
  - unfold Qdiv. change (/ 6)%Q with (1 # 6). lra.
  - unfold Qdiv. change (/ 6)%Q with (1 # 6). lra.
Qed.

Lemma get_epsg_zone_one_wide_witness :
  get_epsg (Float 10) (Float (-183)) = Ok ("1N", 32601).
Proof.
  apply (get_epsg_zone_one_wide 10 (-183)); q_lra.
Defined.

(** X5. Longitudes are neither clamped nor wrapped: from 180 on the zone
    number is 61 or more, and from -186 down it is 0 or less. *)
Theorem get_epsg_no_wraparound (lat lon : Q) :
  exists zone : Z,
    get_epsg (Float lat) (Float lon) =
      Ok (str_of_int zone ++ (if Qle_bool 0 lat then "N" else "S"),
          (if Qle_bool 0 lat then 32600 else 32700) + zone) /\
    ((180 <= lon)%Q -> 61 <= zone) /\
    ((lon <= -186)%Q -> zone <= 0).
Proof.
  exists (trunc ((lon + 180) / 6) + 1). split; [| split].
  - rewrite get_epsg_float_trunc. now destruct (Qle_bool 0 lat).
  - intros H.
    assert (Hq : (inject_Z 60 <= (lon + 180) / 6)%Q)
      by (unfold Qdiv; change (/ 6)%Q with (1 # 6); q_lra).
    pose proof (trunc_monotone _ _ Hq) as Hm.
    change (trunc (inject_Z 60)) with 60 in Hm. lia.
  - intros H.
    assert (Hq : ((lon + 180) / 6 <= inject_Z (-1))%Q)
      by (unfold Qdiv; change (/ 6)%Q with (1 # 6); q_lra).
    pose proof (trunc_monotone _ _ Hq) as Hm.
    change (trunc (inject_Z (-1))) with (-1) in Hm. lia.
Qed.

Lemma get_epsg_no_wraparound_witness :
  exists zone : Z,
    get_epsg (Float 0) (Float 180) =
      Ok (str_of_int zone ++ (if Qle_bool 0 0 then "N" else "S"),
          (if Qle_bool 0 0 then 32600 else 32700) + zone) /\
    ((180 <= 180)%Q -> 61 <= zone) /\
    ((180 <= -186)%Q -> zone <= 0).
Proof.
  exact (get_epsg_no_wraparound 0 180).
Defined.

(** ** DMS input and the hemisphere *)

(** X7. Through the DMS route the direction letter decides the hemisphere
    only for a positive angle: N gives the northern code and S the southern
    code of the same zone.  With a zero angle S gives the northern code
    too. *)
Theorem dms_direction_hemisphere (d m s lon : Q) :
  exists (north south : Q) (zone : Z),
    dms_to_dd d m s "N" = Ok north /\
    dms_to_dd d m s "S" = Ok south /\
    ((0 < d + m / 60 + s / 3600)%Q ->
       get_epsg (Float north) (Float lon) = Ok (str_of_int zone ++ "N", 32600 + zone) /\
       get_epsg (Float south) (Float lon) = Ok (str_of_int zone ++ "S", 32700 + zone)) /\
    ((d + m / 60 + s / 3600 == 0)%Q ->
       get_epsg (Float south) (Float lon) = Ok (str_of_int zone ++ "N", 32600 + zone)).
Proof.
  set (a := (d + m / 60 + s / 3600)%Q).
  exists a, (a * -1)%Q, (trunc ((lon + 180) / 6) + 1).
  split; [reflexivity |]. split; [reflexivity |]. split.
  - intros Hpos. rewrite !get_epsg_float_trunc.
    assert (Hn : Qle_bool 0 a = true) by (apply Qle_bool_iff; lra).
    assert (Hs : Qle_bool 0 (a * -1) = false).
    { apply not_true_is_false. intros H. apply Qle_bool_iff in H. lra. }
    rewrite Hn, Hs. split; reflexivity.
  - intros Hzero. rewrite get_epsg_float_trunc.
    assert (Hs : Qle_bool 0 (a * -1) = true) by (apply Qle_bool_iff; lra).
    rewrite Hs. reflexivity.
Qed.

Lemma dms_direction_hemisphere_witness :
  exists (north south : Q) (zone : Z),
    dms_to_dd 33 52 0 "N" = Ok north /\
    dms_to_dd 33 52 0 "S" = Ok south /\
    ((0 < 33 + 52 / 60 + 0 / 3600)%Q ->
       get_epsg (Float north) (Float 151.2) = Ok (str_of_int zone ++ "N", 32600 + zone) /\
       get_epsg (Float south) (Float 151.2) = Ok (str_of_int zone ++ "S", 32700 + zone)) /\
    ((33 + 52 / 60 + 0 / 3600 == 0)%Q ->
       get_epsg (Float south) (Float 151.2) = Ok (str_of_int zone ++ "N", 32600 + zone)).
Proof.
  exact (dms_direction_hemisphere 33 52 0 151.2).
Defined.

(** ** [get_projection_info] and the EPSG registry *)

(** X8. [get_projection_info] raises exactly when pyproj does not know one
    of the three codes it looks up (4326, the UTM code, 3857), and what it
    raises then is pyproj's error; the table is never partial. *)
Theorem get_projection_info_raises (epsg_registry : Z -> bool) (lat lon : Q)
    (zone : string) (code : Z) :
  get_epsg (Float lat) (Float lon) = Ok (zone, code) ->
  (get_projection_info epsg_registry (Float lat) (Float lon) = Raise CRSError <->
   epsg_registry 4326 = false \/ epsg_registry code = false \/
   epsg_registry 3857 = false) /\
  (forall e, get_projection_info epsg_registry (Float lat) (Float lon) = Raise e ->
             e = CRSError) /\
  (forall table, get_projection_info epsg_registry (Float lat) (Float lon) = Ok table ->
                 length table = 5%nat).
Proof.
  intros Hz. unfold get_projection_info, crs_from_epsg. rewrite Hz.
  destruct (epsg_registry 4326); cbn [bind];
    destruct (epsg_registry code); cbn [bind];
    destruct (epsg_registry 3857); cbn [bind];
    try rewrite dict_display_projections;
    (split; [split; [intros H; solve [discriminate H | auto]
                    | intros [H | [H | H]]; solve [discriminate H | reflexivity]]
            | split; [intros e H; solve [discriminate H | injection H as <-; reflexivity]
                     | intros table H;
                       solve [discriminate H | injection H as <-; reflexivity]]]).
Qed.

Lemma get_projection_info_raises_witness :
  let registry := fun c : Z =>
    (c =? 4326) || (c =? 3857) ||
    ((32601 <=? c) && (c <=? 32660)) || ((32701 <=? c) && (c <=? 32760)) in
  get_projection_info registry (Float 10) (Float 200) = Raise CRSError <->
  registry 4326 = false \/ registry 32664 = false \/ registry 3857 = false.
Proof.
  intros registry.
  apply (get_projection_info_raises registry 10 200 "64N" 32664). reflexivity.
Defined.

(** ** Links *)

Lemma split_colon_uint (d : Decimal.uint) :
  split_colon (NilEmpty.string_of_uint d) = [NilEmpty.string_of_uint d].
Proof.
  induction d; cbn [NilEmpty.string_of_uint split_colon]; [reflexivity | ..];
    rewrite IHd; reflexivity.
Qed.

Lemma split_colon_int (z : Z) : split_colon (str_of_int z) = [str_of_int z].
Proof.
  unfold str_of_int, NilZero.string_of_int.
  destruct (Z.to_int z) as [d | d]; unfold NilZero.string_of_uint.
  - destruct d; try apply (split_colon_uint (_ d)); reflexivity.
  - cbn [split_colon]. change (Ascii.eqb "-" ":") with false. cbv iota.
    destruct d; try (rewrite (split_colon_uint (_ d)); reflexivity); reflexivity.
Qed.

Lemma split_colon_epsg (code : Z) :
  split_colon ("EPSG:" ++ str_of_int code) = ["EPSG"; str_of_int code].
Proof.
  cbn [append split_colon].
  change (Ascii.eqb "E" ":") with false. change (Ascii.eqb "P" ":") with false.
  change (Ascii.eqb "S" ":") with false. change (Ascii.eqb "G" ":") with false.
  change (Ascii.eqb ":" ":") with true. cbv iota.
  rewrite split_colon_int. reflexivity.
Qed.

(** X9. The link the page shows for an EPSG reference is the link the batch
    writes for the same code: splitting "EPSG:<code>" at the colon gives
    back the decimal code. *)
Theorem view_url_of_code (code : Z) :
  view_url ("EPSG:" ++ str_of_int code) = link_of_code code /\
  last (split_colon ("EPSG:" ++ str_of_int code)) EmptyString = str_of_int code.
Proof.
  unfold view_url, link_of_code. rewrite split_colon_epsg. split; reflexivity.
Qed.

(** ** The single-point lookup *)

Lemma read_coordinates_total (c : coordinates) :
  exists lat lon : Q, read_coordinates c = Ok (lat, lon).
Proof.
  destruct c; do 2 eexists; reflexivity.
Qed.

Lemma get_projection_info_ok (epsg_registry : Z -> bool) (lat lon : Q)
    (zone : string) (code : Z) :
  epsg_registry 4326 = true -> epsg_registry 3857 = true ->
  epsg_registry code = true ->
  get_epsg (Float lat) (Float lon) = Ok (zone, code) ->
  get_projection_info epsg_registry (Float lat) (Float lon) =
    Ok [ ("WGS84 (Geographic)", "EPSG:4326");
         ("UTM Zone " ++ zone, "EPSG:" ++ str_of_int code);
         ("Web Mercator", "EPSG:3857");
         ("Equal Earth", "EPSG:8857");
         ("World Cylindrical Equal Area", "EPSG:54034") ].
Proof.
  intros Hwgs Hmerc Hutm Hz. unfold get_projection_info, crs_from_epsg.
  rewrite Hwgs, Hz. cbn [bind]. rewrite Hutm, Hmerc. cbn [bind].
  now rewrite dict_display_projections.
Qed.

Lemma not_origin (lat lon : Q) :
  ~ ((lat == 0)%Q /\ (lon == 0)%Q) -> Qeq_bool lat 0 && Qeq_bool lon 0 = false.
Proof.
  intros H. apply not_true_is_false. intros Hb.
  apply andb_true_iff in Hb. destruct Hb as [Hlat Hlon].
  apply Qeq_bool_iff in Hlat, Hlon. auto.
Qed.

(** X10. The point (0, 0) cannot be looked up: when the coordinates read
    from the widgets are both zero (in DMS, a zero angle in either
    direction), "Find EPSG Code" issues the warning, computes nothing, and
    discards the result stored before. *)
Theorem run_find_origin (epsg_registry : Z -> bool) (session : option lookup)
    (c : coordinates) (lat lon : Q) (clear_clicked : bool) :
  read_coordinates c = Ok (lat, lon) ->
  (lat == 0)%Q -> (lon == 0)%Q ->
  run epsg_registry session c true clear_clicked = Ok (mkRun None true None).
Proof.
  intros Hread Hlat Hlon. unfold run, find_epsg. rewrite Hread. cbn [bind fst snd].
  apply Qeq_bool_iff in Hlat, Hlon. rewrite Hlat, Hlon. cbn [andb bind fst snd].
  now destruct clear_clicked.
Qed.

Lemma run_find_origin_witness :
  run (fun _ => true) (Some (mkLookup 51.5 (-0.1) []))
      (DegMinSec 0 0 0 "S" 0 0 0 "W") true false = Ok (mkRun None true None).
Proof.
  apply (run_find_origin _ _ _ ((0 + 0 / 60 + 0 / 3600) * -1) ((0 + 0 / 60 + 0 / 3600) * -1));
    [reflexivity | vm_compute; reflexivity | vm_compute; reflexivity].
Defined.

(** X11. For any other coordinates whose three codes pyproj knows, "Find
    EPSG Code" replaces whatever was stored by the new result and shows it:
    the five projections, each with the link https://epsg.io/ followed by
    its numeric code, and a marker whose tooltip is the UTM entry of the
    table. *)
Theorem run_find_shows (epsg_registry : Z -> bool) (session : option lookup)
    (c : coordinates) (lat lon : Q) (zone : string) (code : Z) :
  read_coordinates c = Ok (lat, lon) ->
  ~ ((lat == 0)%Q /\ (lon == 0)%Q) ->
  get_epsg (Float lat) (Float lon) = Ok (zone, code) ->
  epsg_registry 4326 = true -> epsg_registry 3857 = true ->
  epsg_registry code = true ->
  exists table : dict,
    get_projection_info epsg_registry (Float lat) (Float lon) = Ok table /\
    run epsg_registry session c true false =
      Ok (mkRun
            (Some (mkLookup lat lon table)) false
            (Some (mkPage (lat, lon)
               [ ("WGS84 (Geographic)", "EPSG:4326", "https://epsg.io/4326");
                 ("UTM Zone " ++ zone, "EPSG:" ++ str_of_int code,
                  "https://epsg.io/" ++ str_of_int code);
                 ("Web Mercator", "EPSG:3857", "https://epsg.io/3857");
                 ("Equal Earth", "EPSG:8857", "https://epsg.io/8857");
                 ("World Cylindrical Equal Area", "EPSG:54034",
                  "https://epsg.io/54034") ]
               ("EPSG:" ++ str_of_int code)))).
Proof.
  intros Hread Hnot Hz Hwgs Hmerc Hutm.
  eexists. split; [now apply get_projection_info_ok with (zone := zone) (code := code) |].
  unfold run, find_epsg. rewrite Hread. cbn [bind fst snd].
  rewrite (not_origin lat lon Hnot).
  rewrite (get_projection_info_ok epsg_registry lat lon zone code Hwgs Hmerc Hutm Hz).
  cbn [bind fst snd]. unfold display. cbn [lookup_lat lookup_lon lookup_projections].
  rewrite Hz. cbn [bind map fst snd].
  unfold view_url at 2. rewrite split_colon_epsg. reflexivity.
Qed.

Lemma run_find_shows_witness :
  let registry := fun c : Z =>
    (c =? 4326) || (c =? 3857) ||
    ((32601 <=? c) && (c <=? 32660)) || ((32701 <=? c) && (c <=? 32760)) in
  exists table : dict,
    get_projection_info registry (Float (51 + 30 / 60 + 0 / 3600))
                        (Float ((0 + 6 / 60 + 0 / 3600) * -1)) = Ok table /\
    run registry None (DegMinSec 51 30 0 "N" 0 6 0 "W") true false =
      Ok (mkRun
            (Some (mkLookup (51 + 30 / 60 + 0 / 3600)
                            ((0 + 6 / 60 + 0 / 3600) * -1) table)) false
            (Some (mkPage (51 + 30 / 60 + 0 / 3600, (0 + 6 / 60 + 0 / 3600) * -1)%Q
               [ ("WGS84 (Geographic)", "EPSG:4326", "https://epsg.io/4326");
                 ("UTM Zone " ++ "30N", "EPSG:" ++ str_of_int 32630,
                  "https://epsg.io/" ++ str_of_int 32630);
                 ("Web Mercator", "EPSG:3857", "https://epsg.io/3857");
                 ("Equal Earth", "EPSG:8857", "https://epsg.io/8857");
                 ("World Cylindrical Equal Area", "EPSG:54034",
                  "https://epsg.io/54034") ]
               ("EPSG:" ++ str_of_int 32630)))).
Proof.
  intros registry.
  apply (run_find_shows registry None (DegMinSec 51 30 0 "N" 0 6 0 "W")
           (51 + 30 / 60 + 0 / 3600) ((0 + 6 / 60 + 0 / 3600) * -1) "30N" 32630);
    try reflexivity.
  intros [H _]. vm_compute in H. discriminate.
Defined.

Lemma display_total (r : lookup) :
  exists p : page,
    display r = Ok p /\ page_coordinates p = (lookup_lat r, lookup_lon r).
Proof.
  unfold display.
  destruct (get_epsg_float (lookup_lat r) (lookup_lon r)) as (zone & code & ->).
  eexists. split; reflexivity.
Qed.

(** X12. A stored result stays on the page until a button is clicked: a run
    without a click shows the stored result, at the stored coordinates,
    and neither the result nor the page depends on what the input widgets
    hold in that run. *)
Theorem run_idle_keeps_result (epsg_registry : Z -> bool) (r : lookup)
    (c c' : coordinates) :
  exists p : page,
    run epsg_registry (Some r) c false false = Ok (mkRun (Some r) false (Some p)) /\
    run epsg_registry (Some r) c' false false = Ok (mkRun (Some r) false (Some p)) /\
    page_coordinates p = (lookup_lat r, lookup_lon r).
Proof.
  destruct (display_total r) as (p & Hp & Hat).
  destruct (read_coordinates_total c) as (lat & lon & Hc).
  destruct (read_coordinates_total c') as (lat' & lon' & Hc').
  exists p. unfold run. rewrite Hc, Hc'. cbn [bind fst snd]. rewrite Hp.
  repeat split; assumption || reflexivity.
Qed.

(** X13. "Clear Results" empties the page for good: the run of the click
    stores and shows nothing, whatever was stored, and neither does a
    later run without a click. *)
Theorem run_clear (epsg_registry : Z -> bool) (session : option lookup)
    (c c' : coordinates) :
  run epsg_registry session c false true = Ok (mkRun None false None) /\
  run epsg_registry None c' false false = Ok (mkRun None false None).
Proof.
  destruct (read_coordinates_total c) as (lat & lon & Hc).
  destruct (read_coordinates_total c') as (lat' & lon' & Hc').
  unfold run. rewrite Hc, Hc'. split; reflexivity.
Qed.

(** X14. When pyproj does not know the UTM code of the coordinates (a
    longitude far outside -180..180, say), "Find EPSG Code" ends the run
    with pyproj's exception: nothing is stored and nothing is shown, with
    or without a click on "Clear Results". *)
Theorem run_find_unknown_code (epsg_registry : Z -> bool) (session : option lookup)
    (c : coordinates) (lat lon : Q) (zone : string) (code : Z)
    (clear_clicked : bool) :
  read_coordinates c = Ok (lat, lon) ->
  ~ ((lat == 0)%Q /\ (lon == 0)%Q) ->
  get_epsg (Float lat) (Float lon) = Ok (zone, code) ->
  epsg_registry code = false ->
  run epsg_registry session c true clear_clicked = Raise CRSError.
Proof.
  intros Hread Hnot Hz Hutm. unfold run, find_epsg. rewrite Hread.
  cbn [bind fst snd]. rewrite (not_origin lat lon Hnot).
  unfold get_projection_info, crs_from_epsg. rewrite Hz.
  destruct (epsg_registry 4326); cbn [bind]; [| now destruct clear_clicked].
  rewrite Hutm. cbn [bind]. reflexivity.
Qed.

Lemma run_find_unknown_code_witness :
  let registry := fun c : Z =>
    (c =? 4326) || (c =? 3857) ||
    ((32601 <=? c) && (c <=? 32660)) || ((32701 <=? c) && (c <=? 32760)) in
  run registry (Some (mkLookup 51.5 (-0.1) [])) (DecimalDegrees 10 400) true false =
  Raise CRSError.
Proof.
  intros registry.
  apply (run_find_unknown_code registry _ _ 10 400 "97N" 32697); try reflexivity.
  intros [H _]. vm_compute in H. discriminate.
Defined.

(** ** The batch as a whole *)

Lemma zone_of_row_selected (cols : list string) (r : list value) :
  zone_of_row
    (mkRow (columns (select ["lat"; "lon"] (mkFrame cols [])))
           (take NaN (positions "lat" cols) r ++
            take NaN (positions "lon" cols) r)) =
  zone_of_row (mkRow cols r).
Proof.
  unfold zone_of_row. rewrite select_columns. cbn [columns].
  rewrite (getitem_selected cols r "lat") by auto.
  rewrite (getitem_selected cols r "lon") by auto.
  reflexivity.
Qed.

Lemma augment_raises (df : DataFrame) (r : list value) (e : exn) :
  In r (rows df) ->
  zone_of_row (mkRow (columns df) r) = Raise e ->
  exists e', augment df = Raise e'.
Proof.
  intros Hr He. unfold augment. set (sel := select ["lat"; "lon"] df).
  assert (Hin : In (take NaN (positions "lat" (columns df)) r ++
                    take NaN (positions "lon" (columns df)) r)%list
                   (rows sel)).
  { unfold sel. rewrite select_rows.
    exact (in_map (fun r0 =>
                     take NaN (positions "lat" (columns df)) r0 ++
                     take NaN (positions "lon" (columns df)) r0)%list
                  _ _ Hr). }
  rewrite apply_rows_nonempty by (destruct (rows sel); [contradiction | discriminate]).
  rewrite <- zone_of_row_selected in He.
  assert (Hcols : columns sel =
                  columns (select ["lat"; "lon"] (mkFrame (columns df) []))).
  { unfold sel. now rewrite !select_columns. }
  rewrite <- Hcols in He.
  destruct (apply_standard_raises zone_of_row (columns sel) (rows sel) _ e Hin He)
    as [e' ->].
  cbn. eauto.
Qed.

Lemma zone_of_row_bad_lon (cols : list string) (r : list value) (v : value) :
  getitem (mkRow cols r) "lon" = Ok v -> is_finite v = false ->
  exists e, zone_of_row (mkRow cols r) = Raise e.
Proof.
  intros Hlon Hv. unfold zone_of_row.
  destruct (getitem (mkRow cols r) "lat") as [lat | e]; cbn [bind]; eauto.
  rewrite Hlon. cbn [bind].
  destruct (get_epsg_bad_lon lat v Hv) as [e ->]. cbn. eauto.
Qed.

Lemma zone_of_row_series_lat (cols : list string) (r : list value) (xs : list value) :
  getitem (mkRow cols r) "lat" = Ok (Series xs) ->
  exists e, zone_of_row (mkRow cols r) = Raise e.
Proof.
  intros Hlat. unfold zone_of_row. rewrite Hlat. cbn [bind].
  destruct (getitem (mkRow cols r) "lon") as [lon | e]; cbn [bind]; eauto.
  destruct (get_epsg_bad_lat (Series xs) lon) as [e ->]; [eauto |].
  cbn. eauto.
Qed.

Lemma getitem_repeated (cols : list string) (r : list value) (l : string)
    (p q : nat) (ps : list nat) :
  positions l cols = p :: q :: ps ->
  exists xs, getitem (mkRow cols r) l = Ok (Series xs).
Proof.
  intros Hpos. unfold getitem. cbn [index cells]. rewrite Hpos.
  cbn [take map]. eauto.
Qed.

Lemma zone_of_row_repeated (cols : list string) (r : list value) :
  (2 <= length (positions "lat" cols))%nat \/
  (2 <= length (positions "lon" cols))%nat ->
  exists e, zone_of_row (mkRow cols r) = Raise e.
Proof.
  intros [Hlat | Hlon].
  - destruct (positions "lat" cols) as [| p [| q ps]] eqn:Hpos;
      cbn [length] in Hlat; try lia.
    destruct (getitem_repeated cols r "lat" p q ps Hpos) as [xs Hxs].
    now apply zone_of_row_series_lat with xs.
  - destruct (positions "lon" cols) as [| p [| q ps]] eqn:Hpos;
      cbn [length] in Hlon; try lia.
    destruct (getitem_repeated cols r "lon" p q ps Hpos) as [xs Hxs].
    now apply zone_of_row_bad_lon with (Series xs).
Qed.

Lemma zone_of_row_unique (cols : list string) (r : list value) (i j : nat) :
  positions "lat" cols = [i] -> positions "lon" cols = [j] ->
  zone_of_row (mkRow cols r) =
  (x <- get_epsg (nth i r NaN) (nth j r NaN) ;; Ok (fst x)).
Proof.
  intros Hi Hj. unfold zone_of_row, getitem. cbn [index cells].
  rewrite Hi, Hj. reflexivity.
Qed.

Lemma zone_of_row_ok (a b : value) :
  get_epsg a b = Ok (epsg_of a b) ->
  zone_of_row (mkRow ["lat"; "lon"] [a; b]) = Ok (fst (epsg_of a b)).
Proof.
  intros H. unfold zone_of_row.
  change (getitem (mkRow ["lat"; "lon"] [a; b]) "lat") with (Ok a).
  change (getitem (mkRow ["lat"; "lon"] [a; b]) "lon") with (Ok b).
  cbn [bind]. now rewrite H.
Qed.

Lemma code_of_row_ok (a b zone : value) :
  get_epsg a b = Ok (epsg_of a b) ->
  code_of_row (mkRow ["lat"; "lon"; "UTM Zone"] [a; b; zone]) =
  Ok (snd (epsg_of a b)).
Proof.
  intros H. unfold code_of_row.
  change (getitem (mkRow ["lat"; "lon"; "UTM Zone"] [a; b; zone]) "lat") with (Ok a).
  change (getitem (mkRow ["lat"; "lon"; "UTM Zone"] [a; b; zone]) "lon") with (Ok b).
  cbn [bind]. now rewrite H.
Qed.

Lemma augment_ok (cols : list string) (rs : list (list value)) (i j : nat) :
  positions "lat" cols = [i] ->
  positions "lon" cols = [j] ->
  rs <> [] ->
  (forall r, In r rs ->
     get_epsg (nth i r NaN) (nth j r NaN) = Ok (epsg_of (nth i r NaN) (nth j r NaN))) ->
  augment (mkFrame cols rs) =
  Ok (mkFrame ["lat"; "lon"; "UTM Zone"; "EPSG Code"; "EPSG Link"]
              (map (fun r => expected_row (nth i r NaN) (nth j r NaN)) rs)).
Proof.
  intros Hi Hj Hne Hok. unfold augment.
  rewrite (select_unique cols rs i j Hi Hj).
  assert (Hmap : forall (g : list value -> list value), map g rs <> []).
  { intros g. destruct rs; [congruence | discriminate]. }
  rewrite apply_rows_nonempty by apply Hmap. cbn [columns rows].
  rewrite (apply_standard_map zone_of_row _ _
             (fun r => fst (epsg_of (nth i r NaN) (nth j r NaN))))
    by (intros r Hr; apply zone_of_row_ok, Hok, Hr).
  cbn [bind setitem]. rewrite map_map, add_column_map. cbn [app].
  rewrite apply_rows_nonempty by apply Hmap. cbn [columns rows].
  rewrite (apply_standard_map code_of_row _ _
             (fun r => snd (epsg_of (nth i r NaN) (nth j r NaN))))
    by (intros r Hr; apply code_of_row_ok, Hok, Hr).
  cbn [bind setitem stored]. rewrite map_map, add_column_map. cbn [app].
  rewrite !map_map, add_column_map. reflexivity.
Qed.

Lemma rows_ok_or_raise {A : Type} (f : list value -> res A) (rs : list (list value)) :
  (forall r, In r rs -> exists x, f r = Ok x) \/
  (exists r e, In r rs /\ f r = Raise e).
Proof.
  induction rs as [| r rs [IH | (r' & e & Hin & He)]].
  - left. intros r [].
  - destruct (f r) as [x | e] eqn:Hr.
    + left. intros r' [<- | Hin]; eauto.
    + right. exists r, e. split; [now left | exact Hr].
  - right. exists r', e. split; [now right | exact He].
Qed.

Lemma positions_from_count (i : nat) (l : string) (cols : list string) :
  length (positions_from i l cols) = count_occ string_dec cols l.
Proof.
  revert i. induction cols as [| c cols IH]; intros i; cbn [positions_from count_occ].
  - reflexivity.
  - destruct (String.eqb_spec c l) as [Heq | Hne], (string_dec c l) as [Hd | Hd];
      try contradiction; cbn [length]; now rewrite IH.
Qed.

(** X15. The batch is all or nothing.  On a table without integer
    coordinates (float columns, as a file of decimal degrees gives),
    whenever the batch ends with an output, the table had exactly one lat
    and one lon column and at least one row, [get_epsg] returned on every
    row, and the output holds these rows in their order: the coordinates,
    the zone label, the code and the link of input row [k] at position
    [k]. *)
Theorem resolveBatch_all_or_nothing (df out : DataFrame) :
  (forall r z, In r (rows df) ->
     getitem (mkRow (map lower (columns df)) r) "lat" <> Ok (Int z) /\
     getitem (mkRow (map lower (columns df)) r) "lon" <> Ok (Int z)) ->
  resolveBatch df = Processed out ->
  exists i j : nat,
    positions "lat" (map lower (columns df)) = [i] /\
    positions "lon" (map lower (columns df)) = [j] /\
    rows df <> [] /\
    columns out = ["lat"; "lon"; "UTM Zone"; "EPSG Code"; "EPSG Link"] /\
    length (rows out) = length (rows df) /\
    forall (k : nat) (r : list value),
      nth_error (rows df) k = Some r ->
      exists (zone : string) (code : Z),
        get_epsg (nth i r NaN) (nth j r NaN) = Ok (zone, code) /\
        nth_error (rows out) k =
          Some [ nth i r NaN; nth j r NaN; Str zone; Int code;
                 Str ("https://epsg.io/" ++ str_of_int code) ].
Proof.
  unfold resolveBatch. intros _ H.
  destruct (has_column "lat" (lower_columns df) && has_column "lon" (lower_columns df))
    eqn:Hhas; [| discriminate].
  destruct (augment (lower_columns df)) as [o | e] eqn:Haug; [| discriminate].
  injection H as ->.
  apply andb_true_iff in Hhas. destruct Hhas as [Hlat Hlon].
  apply has_column_positions in Hlat, Hlon.
  unfold lower_columns in *. cbn [columns] in Hlat, Hlon.
  set (cols := map lower (columns df)) in *.
  assert (Hne : rows df <> []).
  { intros Hnil.
    rewrite (augment_no_rows (mkFrame cols (rows df))) in Haug;
      [discriminate | exact Hnil | exact Hlat | exact Hlon]. }
  assert (Hnoraise : forall r e, In r (rows df) ->
                                 zone_of_row (mkRow cols r) <> Raise e).
  { intros r e Hr He.
    destruct (augment_raises (mkFrame cols (rows df)) r e Hr He) as [e' He'].
    congruence. }
  destruct (rows df) as [| r0 rs0] eqn:Hrows; [congruence |].
  assert (Hr0 : In r0 (r0 :: rs0)) by now left.
  destruct (positions "lat" cols) as [| i [| i' ps]] eqn:Hi; [congruence | |].
  2: { destruct (zone_of_row_repeated cols r0) as [e He];
         [left; rewrite Hi; cbn [length]; lia |].
       now destruct (Hnoraise r0 e Hr0). }
  destruct (positions "lon" cols) as [| j [| j' qs]] eqn:Hj; [congruence | |].
  2: { destruct (zone_of_row_repeated cols r0) as [e He];
         [right; rewrite Hj; cbn [length]; lia |].
       now destruct (Hnoraise r0 e Hr0). }
  exists i, j. split; [reflexivity |]. split; [reflexivity |]. split; [discriminate |].
  assert (Hok : forall r, In r (r0 :: rs0) ->
                  get_epsg (nth i r NaN) (nth j r NaN) =
                  Ok (epsg_of (nth i r NaN) (nth j r NaN))).
  { destruct (rows_ok_or_raise (fun r => get_epsg (nth i r NaN) (nth j r NaN))
                               (r0 :: rs0)) as [Hall | (r & e & Hr & He)].
    - intros r Hr. destruct (Hall r Hr) as [x Hx].
      unfold epsg_of. now rewrite Hx.
    - exfalso. apply (Hnoraise r e Hr).
      rewrite (zone_of_row_unique cols r i j Hi Hj), He. reflexivity. }
  rewrite (augment_ok cols (r0 :: rs0) i j Hi Hj) in Haug by (discriminate || exact Hok).
  assert (Ho : out = mkFrame ["lat"; "lon"; "UTM Zone"; "EPSG Code"; "EPSG Link"]
                     (map (fun r => expected_row (nth i r NaN) (nth j r NaN))
                          (r0 :: rs0))) by congruence.
  rewrite Ho. clear Ho Haug. unfold columns, rows.
  split; [reflexivity |]. split; [apply length_map |].
  intros k r Hk.
  assert (Hr : In r (r0 :: rs0)) by (eapply nth_error_In; eassumption).
  exists (fst (epsg_of (nth i r NaN) (nth j r NaN))),
         (snd (epsg_of (nth i r NaN) (nth j r NaN))).
  split.
  - rewrite (Hok r Hr). now destruct (epsg_of _ _).
  - now rewrite nth_error_map, Hk.
Qed.

Lemma resolveBatch_all_or_nothing_witness :
  let df := mkFrame ["LAT"; "Lon"] [[NaN; Float 151.2]; [Float 51.5; Float 0]] in
  exists i j : nat,
    positions "lat" (map lower (columns df)) = [i] /\
    positions "lon" (map lower (columns df)) = [j] /\
    rows df <> [] /\
    columns (mkFrame ["lat"; "lon"; "UTM Zone"; "EPSG Code"; "EPSG Link"]
               [ [NaN; Float 151.2; Str "56S"; Int 32756; Str "https://epsg.io/32756"];
                 [Float 51.5; Float 0; Str "31N"; Int 32631; Str "https://epsg.io/32631"] ]) =
      ["lat"; "lon"; "UTM Zone"; "EPSG Code"; "EPSG Link"] /\
    length (rows (mkFrame ["lat"; "lon"; "UTM Zone"; "EPSG Code"; "EPSG Link"]
               [ [NaN; Float 151.2; Str "56S"; Int 32756; Str "https://epsg.io/32756"];
                 [Float 51.5; Float 0; Str "31N"; Int 32631; Str "https://epsg.io/32631"] ])) =
      length (rows df) /\
    forall (k : nat) (r : list value),
      nth_error (rows df) k = Some r ->
      exists (zone : string) (code : Z),
        get_epsg (nth i r NaN) (nth j r NaN) = Ok (zone, code) /\
        nth_error (rows (mkFrame ["lat"; "lon"; "UTM Zone"; "EPSG Code"; "EPSG Link"]
               [ [NaN; Float 151.2; Str "56S"; Int 32756; Str "https://epsg.io/32756"];
                 [Float 51.5; Float 0; Str "31N"; Int 32631; Str "https://epsg.io/32631"] ])) k =
          Some [ nth i r NaN; nth j r NaN; Str zone; Int code;
                 Str ("https://epsg.io/" ++ str_of_int code) ].
Proof.
  intros df. apply (resolveBatch_all_or_nothing df); [| reflexivity].
  intros r z [<- | [<- | []]]; split; discriminate.
Defined.

(** X16. A row whose longitude is missing (NaN) or not a number makes the
    whole batch end in the processing error, whatever the other rows
    hold. *)
Theorem resolveBatch_bad_lon_aborts (df : DataFrame) (r : list value) (v : value) :
  In "lat" (map lower (columns df)) ->
  In r (rows df) ->
  getitem (mkRow (map lower (columns df)) r) "lon" = Ok v ->
  is_finite v = false ->
  exists e, resolveBatch df = ProcessingError e.
Proof.
  intros Hlat Hr Hlon Hv. unfold resolveBatch.
  assert (Hhas : has_column "lon" (lower_columns df) = true).
  { apply has_column_positions. cbn [lower_columns columns]. intros Hnone.
    unfold getitem in Hlon. cbn [index cells] in Hlon.
    rewrite Hnone in Hlon. discriminate. }
  apply has_column_lower in Hlat. rewrite Hhas, Hlat. cbn [andb].
  destruct (zone_of_row_bad_lon _ r v Hlon Hv) as [e He].
  destruct (augment_raises (lower_columns df) r e Hr He) as [e' ->].
  eauto.
Qed.

Lemma resolveBatch_bad_lon_aborts_witness :
  exists e,
    resolveBatch (mkFrame ["lat"; "lon"]
                          [[Float 10; Float 20]; [Float 30; NaN]]) = ProcessingError e.
Proof.
  apply (resolveBatch_bad_lon_aborts _ [Float 30; NaN] NaN).
  - vm_compute. auto.
  - cbn [rows In]. auto.
  - reflexivity.
  - reflexivity.
Defined.

(** X17. Two columns whose names differ only by case collide: a table with
    lat and lon columns in which lat, or lon, names two or more columns
    after lower-casing ends in the processing error, whatever its rows. *)
Theorem resolveBatch_repeated_column (df : DataFrame) :
  In "lat" (map lower (columns df)) ->
  In "lon" (map lower (columns df)) ->
  (2 <= count_occ string_dec (map lower (columns df)) "lat")%nat \/
  (2 <= count_occ string_dec (map lower (columns df)) "lon")%nat ->
  exists e, resolveBatch df = ProcessingError e.
Proof.
  intros Hlat Hlon Hrep. unfold resolveBatch.
  apply has_column_lower in Hlat, Hlon. rewrite Hlat, Hlon. cbn [andb].
  apply has_column_positions in Hlat, Hlon.
  destruct (rows df) as [| r0 rs0] eqn:Hrows.
  - rewrite augment_no_rows; [eauto | cbn [lower_columns rows]; exact Hrows | |];
      assumption.
  - rewrite <- !(positions_from_count 0) in Hrep.
    destruct (zone_of_row_repeated (map lower (columns df)) r0 Hrep) as [e He].
    destruct (augment_raises (lower_columns df) r0 e) as [e' ->];
      [cbn [lower_columns rows]; rewrite Hrows; now left | exact He | eauto].
Qed.

Lemma resolveBatch_repeated_column_witness :
  exists e,
    resolveBatch (mkFrame ["Lat"; "lat"; "lon"]
                          [[Float 10; Float 10; Float 20]]) = ProcessingError e.
Proof.
  apply resolveBatch_repeated_column.
  - vm_compute. auto.
  - vm_compute. auto.
  - left. vm_compute. lia.
Defined.



Lemma lower_ascii_idempotent (c : ascii) :
  lower_ascii (lower_ascii c) = lower_ascii c.
Proof.
  destruct c as [[] [] [] [] [] [] [] []]; reflexivity.
Qed.

Lemma lower_idempotent (s : string) : lower (lower s) = lower s.
Proof.
  induction s as [| c s IH]; cbn [lower]; [reflexivity |].
  now rewrite lower_ascii_idempotent, IH.
Qed.

(** X19. The case of the header letters never matters: a table and the same
    table with its column names in lower case have the same outcome,
    output and errors alike. *)
Theorem resolveBatch_header_case (cols : list string) (rs : list (list value)) :
  resolveBatch (mkFrame (map lower cols) rs) = resolveBatch (mkFrame cols rs).
Proof.
  unfold resolveBatch, lower_columns. cbn [columns rows].
  rewrite map_map. rewrite (map_ext _ _ lower_idempotent). reflexivity.
Qed.

(** X20. On every table with at least one row, one lat and one lon column
    and float coordinates in every row, the batch outputs the rows of the
    input in the order of the input: row [k] holds the latitude and
    longitude of input row [k], the zone label and the EPSG code
    [get_epsg] returns for them, and the URL https://epsg.io/ followed by
    the decimal numeral of that code. *)
Theorem resolveBatch_float_rows (df : DataFrame) (i j : nat) :
  positions "lat" (map lower (columns df)) = [i] ->
  positions "lon" (map lower (columns df)) = [j] ->
  rows df <> [] ->
  all_float i j (rows df) ->
  exists out : DataFrame,
    resolveBatch df = Processed out /\
    columns out = ["lat"; "lon"; "UTM Zone"; "EPSG Code"; "EPSG Link"] /\
    length (rows out) = length (rows df) /\
    forall (k : nat) (r : list value),
      nth_error (rows df) k = Some r ->
      exists (zone : string) (code : Z) (digits : string),
        get_epsg (nth i r NaN) (nth j r NaN) = Ok (zone, code) /\
        decimal_of code digits /\
        nth_error (rows out) k =
          Some [ nth i r NaN; nth j r NaN; Str zone; Int code;
                 Str ("https://epsg.io/" ++ digits) ].
Proof.
  intros Hi Hj Hne Hfloat.
  assert (Hnum : all_numeric i j (rows df)).
  { intros r Hr. destruct (Hfloat r Hr) as (lat & lon & -> & ->). split; reflexivity. }
  eexists. split; [| split; [| split]].
  - unfold resolveBatch.
    assert (Hlat : has_column "lat" (lower_columns df) = true)
      by (apply has_column_positions; cbn [lower_columns columns]; now rewrite Hi).
    assert (Hlon : has_column "lon" (lower_columns df) = true)
      by (apply has_column_positions; cbn [lower_columns columns]; now rewrite Hj).
    rewrite Hlat, Hlon. cbn [andb]. unfold lower_columns.
    rewrite (augment_numeric _ _ i j Hi Hj Hne Hnum). reflexivity.
  - reflexivity.
  - cbn [rows]. apply length_map.
  - intros k r Hk. cbn [rows].
    assert (Hr : In r (rows df)) by (eapply nth_error_In; eassumption).
    destruct (Hnum r Hr) as [Hlat Hlon].
    exists (fst (epsg_of (nth i r NaN) (nth j r NaN))),
           (snd (epsg_of (nth i r NaN) (nth j r NaN))),
           (str_of_int (snd (epsg_of (nth i r NaN) (nth j r NaN)))).
    split; [| split].
    + rewrite get_epsg_finite by assumption. now destruct (epsg_of _ _).
    + apply str_of_int_decimal.
    + now rewrite nth_error_map, Hk.
Qed.

Lemma resolveBatch_float_rows_witness :
  let df := mkFrame ["name"; "LON"; "Lat"]
                    [[Str "Sydney"; Float 151.2; Float (-33.9)];
                     [Str "London"; Float (-0.1); Float 51.5];
                     [Str "Sydney"; Float 151.2; Float (-33.9)]] in
  exists out : DataFrame,
    resolveBatch df = Processed out /\
    columns out = ["lat"; "lon"; "UTM Zone"; "EPSG Code"; "EPSG Link"] /\
    length (rows out) = length (rows df) /\
    forall (k : nat) (r : list value),
      nth_error (rows df) k = Some r ->
      exists (zone : string) (code : Z) (digits : string),
        get_epsg (nth 2 r NaN) (nth 1 r NaN) = Ok (zone, code) /\
        decimal_of code digits /\
        nth_error (rows out) k =
          Some [ nth 2 r NaN; nth 1 r NaN; Str zone; Int code;
                 Str ("https://epsg.io/" ++ digits) ].
Proof.
  intros df.
  apply (resolveBatch_float_rows df 2%nat 1%nat).
  - reflexivity.
  - reflexivity.
  - discriminate.
  - intros r [<- | [<- | [<- | []]]]; do 2 eexists; split; reflexivity.
Defined.
